(** * Neo4j MCP server and client shim: a shallow embedding

    The development follows [mcp-server/src/server.py] (the connection
    singleton, the four tools and the statements they build) and the
    client method [Neo4jMCPTool._execute_mcp_call] of [graph_agent.py].

    Python values are an inductive type, Python dicts are association
    lists in insertion order with unique keys, exceptions are values of
    [Exn], and the module global [driver] together with the database
    behind the driver live in an explicit [World] threaded through a
    small state-and-exception monad. *)

From Stdlib Require Import String Ascii List ZArith Bool Arith Lia.
From Stdlib Require Import DecimalString.
Import ListNotations.
Local Open Scope list_scope.
Local Open Scope string_scope.

Set Implicit Arguments.

(** ** Python values *)

(** What the tools receive, build and return: JSON-like data plus the
    objects of the neo4j driver.  [VNode] and [VRel] are its graph elements
    ([neo4j.graph.Node], [neo4j.graph.Relationship]); [VObject] is any
    other object of the driver (a [Date], [Time], [DateTime] or
    [Duration], a [Point], a [Path]), given by its class name and by what
    iterating over it yields, [None] when it cannot be iterated (the
    coordinates of a point, the relationships of a path).  Floats are kept
    as their text. *)
#[warning="-register-all"]
Inductive value : Type :=
| VNone
| VBool (b : bool)
| VInt (z : Z)
| VFloat (repr : string)
| VStr (s : string)
| VList (items : list value)
| VDict (entries : list (string * value))
| VNode (id : Z) (labels : list string) (props : list (string * value))
| VRel (id : Z) (rel_type : string) (props : list (string * value))
| VObject (cls : string) (iter : option (list value)).

(** A Python [dict] with string keys, in insertion order. *)
Definition Dict := list (string * value).

(** A [neo4j.Record]: the returned columns in order. *)
Definition Record_ := list (string * value).

(** [plain v]: [v] holds no object of the driver at any depth, so it is
    made of scalars, sequences and string-keyed mappings only. *)
Fixpoint plain (v : value) : bool :=
  match v with
  | VNone | VBool _ | VInt _ | VFloat _ | VStr _ => true
  | VList items => forallb plain items
  | VDict entries => forallb (fun kv => let '(_, x) := kv in plain x) entries
  | VNode _ _ _ | VRel _ _ _ | VObject _ _ => false
  end.

Definition plain_dict (d : Dict) : bool :=
  forallb (fun kv => plain (snd kv)) d.

(** ** Dict operations *)

Definition keys (d : Dict) : list string := map fst d.

Fixpoint dict_get (d : Dict) (k : string) : option value :=
  match d with
  | [] => None
  | (k', v) :: rest => if String.eqb k' k then Some v else dict_get rest k
  end.

(** [d[k] = v]: an existing key keeps its position, a new one goes last. *)
Fixpoint dict_set (d : Dict) (k : string) (v : value) : Dict :=
  match d with
  | [] => [(k, v)]
  | (k', v') :: rest =>
      if String.eqb k' k then (k', v) :: rest else (k', v') :: dict_set rest k v
  end.

Definition has_key (d : Dict) (k : string) : bool :=
  match dict_get d k with Some _ => true | None => false end.

(** The keys of two property maps are the same set. *)
Definition same_key_set (p1 p2 : Dict) : Prop :=
  forall k, In k (keys p1) <-> In k (keys p2).

(** ** Strings *)

(** [sep.join(parts)] *)
Definition join (sep : string) (parts : list string) : string :=
  String.concat sep parts.

(** [sub in s] *)
Fixpoint contains (sub s : string) : bool :=
  if String.prefix sub s then true
  else match s with
       | EmptyString => false
       | String _ rest => contains sub rest
       end.


Definition is_ident_char (c : ascii) : bool :=
  let n := nat_of_ascii c in
  (((48 <=? n) && (n <=? 57)) || ((65 <=? n) && (n <=? 90))
   || ((97 <=? n) && (n <=? 122)) || (n =? 95))%nat.

Fixpoint all_chars (p : ascii -> bool) (s : string) : bool :=
  match s with
  | EmptyString => true
  | String c rest => p c && all_chars p rest
  end.

(** The identifier-safe pattern of the specification (section 4.2):
    alphanumeric or underscore characters only, and at least one of them.
    The source defines no such check; the predicate is used to state the
    claims that speak of it. *)
Definition identifier_safe (s : string) : bool :=
  negb (String.eqb s "") && all_chars is_ident_char s.

(** ** Exceptions and the monad *)

(** An exception object, an instance of [Exception]: its class name and
    the text [str] gives for it. *)
Record Exn := mkExn { exn_class : string; exn_text : string }.

(** [str(e)] *)
Definition str (e : Exn) : string := exn_text e.

Inductive Result (A : Type) : Type :=
| Ok (a : A)
| Raise (e : Exn).
Arguments Ok {A} a.
Arguments Raise {A} e.

(** A statement as handed to [session.run]: the text and the bound
    parameters. *)
Record Statement := mkStatement { stmt_text : string; stmt_params : Dict }.

(** A handle made by [GraphDatabase.driver]: which one it is, and what it
    was created from. *)
Record Driver := mkDriver {
  handle : nat;
  drv_uri : option string;
  drv_auth : option string * option string
}.

(** The environment variables read at import time ([os.getenv] gives
    [None] for an unset one). *)
Record Config := mkConfig {
  NEO4J_URI : option string;
  NEO4J_USERNAME : option string;
  NEO4J_PASSWORD : option string
}.

(** ** Python built-ins used by the tools *)

Definition rbind {A B} (r : Result A) (f : A -> Result B) : Result B :=
  match r with
  | Ok a => f a
  | Raise e => Raise e
  end.

Fixpoint map_result {A B} (f : A -> Result B) (l : list A) : Result (list B) :=
  match l with
  | [] => Ok []
  | x :: rest =>
      rbind (f x) (fun y => rbind (map_result f rest) (fun ys => Ok (y :: ys)))
  end.

Definition TypeError (msg : string) : Exn := mkExn "TypeError" msg.
Definition ValueError (msg : string) : Exn := mkExn "ValueError" msg.
(** [str(KeyError(k))] shows the key in quotes. *)
Definition KeyError (key : string) : Exn :=
  mkExn "KeyError" ("'" ++ key ++ "'").
Definition AttributeError (msg : string) : Exn := mkExn "AttributeError" msg.

(** The classes of the exceptions the built-ins used by the tools raise. *)
Definition builtin_classes : list string :=
  ["TypeError"; "KeyError"; "AttributeError"; "ValueError"].

(** [hasattr(value, '__dict__')]: the objects of the driver are ordinary
    class instances and have one; [None], numbers, strings, lists and
    dicts have none. *)
Definition hasattr_dict (v : value) : bool :=
  match v with
  | VNode _ _ _ | VRel _ _ _ | VObject _ _ => true
  | _ => false
  end.

(** [type(v).__name__] *)
Definition type_name (v : value) : string :=
  match v with
  | VNone => "NoneType"
  | VBool _ => "bool"
  | VInt _ => "int"
  | VFloat _ => "float"
  | VStr _ => "str"
  | VList _ => "list"
  | VDict _ => "dict"
  | VNode _ _ _ => "Node"
  | VRel _ _ _ => "Relationship"
  | VObject cls _ => cls
  end.

Fixpoint chars (s : string) : list value :=
  match s with
  | EmptyString => []
  | String c rest => VStr (String c "") :: chars rest
  end.

(** What [iter(v)] yields, when [v] can be iterated: the items of a list,
    the characters of a string, the keys of a mapping. *)
Definition iter_items (v : value) : option (list value) :=
  match v with
  | VList items => Some items
  | VStr s => Some (chars s)
  | VDict d | VNode _ _ d | VRel _ _ d => Some (map VStr (keys d))
  | VObject _ iter => iter
  | _ => None
  end.

Definition show_nat (n : nat) : string := NilZero.string_of_uint (Nat.to_uint n).

(** One element of the sequence given to [dict]: it must yield exactly
    two things, a key and a value.  A key that is not a string is outside
    [Dict] and counts as a failure here. *)
Definition as_pair (index : nat) (item : value) : Result (string * value) :=
  match iter_items item with
  | None =>
      Raise (TypeError ("cannot convert dictionary update sequence element #"
                        ++ show_nat index ++ " to a sequence"))
  | Some [VStr k; v] => Ok (k, v)
  | Some [_; _] => Raise (TypeError "key is not a string")
  | Some items =>
      Raise (ValueError ("dictionary update sequence element #"
                         ++ show_nat index ++ " has length "
                         ++ show_nat (length items) ++ "; 2 is required"))
  end.

Fixpoint dict_of_pairs (index : nat) (items : list value) (acc : Dict)
    : Result Dict :=
  match items with
  | [] => Ok acc
  | item :: rest =>
      match as_pair index item with
      | Ok (k, v) => dict_of_pairs (S index) rest (dict_set acc k v)
      | Raise e => Raise e
      end
  end.

(** [dict(value)]: a graph element is a mapping over its properties; a
    dict is copied; anything else that can be iterated is read as a
    sequence of key/value pairs; the rest is not iterable. *)
Definition py_dict (v : value) : Result Dict :=
  match v with
  | VNode _ _ props | VRel _ _ props => Ok props
  | VDict d => Ok d
  | _ =>
      match iter_items v with
      | Some items => dict_of_pairs 0 items []
      | None =>
          Raise (TypeError ("'" ++ type_name v ++ "' object is not iterable"))
      end
  end.

(** [record[key]] *)
Definition record_getitem (record : Record_) (key : string) : Result value :=
  match dict_get record key with
  | Some v => Ok v
  | None => Raise (KeyError key)
  end.

(** [result.single()]: the first record, or [None] when there is none. *)
Definition single (result : list Record_) : option Record_ := hd_error result.

(** [result.single()[key]] *)
Definition single_getitem (result : list Record_) (key : string) : Result value :=
  match single result with
  | Some record => record_getitem record key
  | None => Raise (TypeError "'NoneType' object is not subscriptable")
  end.

(** [list(node.labels)], in the order the runtime lists them *)
Definition attr_labels (v : value) : Result (list string) :=
  match v with
  | VNode _ labels _ => Ok labels
  | _ => Raise (AttributeError "labels")
  end.

(** [node.id] *)
Definition attr_id (v : value) : Result Z :=
  match v with
  | VNode id _ _ | VRel id _ _ => Ok id
  | _ => Raise (AttributeError "id")
  end.

(** [x if x is not None else None], as a value *)
Definition opt_str (o : option string) : value :=
  match o with Some s => VStr s | None => VNone end.

Definition opt_dict (o : option Dict) : value :=
  match o with Some d => VDict d | None => VNone end.

(** ** Result conversion of [run_cypher_query] ([server.py], lines 64-77) *)

(** The body of the inner loop: one value of a record. *)
Definition convert_value (v : value) : Result value :=
  if hasattr_dict v then rbind (py_dict v) (fun d => Ok (VDict d))
  else Ok v.

(** [for key in record.keys(): record_dict[key] = ...] *)
Fixpoint convert_keys (f : value -> Result value) (record : Record_)
    (ks : list string) (record_dict : Dict) : Result Dict :=
  match ks with
  | [] => Ok record_dict
  | key :: rest =>
      rbind (record_getitem record key) (fun v =>
      rbind (f v) (fun v' =>
      convert_keys f record rest (dict_set record_dict key v')))
  end.

Definition convert_record (record : Record_) : Result Dict :=
  convert_keys convert_value record (keys record) [].

(** [dict(record)] for a [neo4j.Record] *)
Definition dict_of_record (record : Record_) : Result Dict :=
  convert_keys (fun v => Ok v) record (keys record) [].

(** ** Statement construction *)

(** [create_node], lines 156-157 *)
Definition create_node_query (label : string) (properties : Dict) : string :=
  let props_str :=
    join ", " (map (fun key => key ++ ": $" ++ key) (keys properties)) in
  "CREATE (n:" ++ label ++ " {" ++ props_str ++ "}) RETURN n".

(** Truth value of an optional string or dict. *)
Definition truthy_str (o : option string) : bool :=
  match o with Some s => negb (String.eqb s "") | None => false end.

Definition truthy_dict (o : option Dict) : bool :=
  match o with Some (_ :: _) => true | _ => false end.

(** [find_nodes], lines 203-206: the loop over [properties.items()],
    carrying [where_clauses] and [params]. *)
Fixpoint where_loop (items : Dict) (where_clauses : list string) (params : Dict)
    : list string * Dict :=
  match items with
  | [] => (where_clauses, params)
  | (key, v) :: rest =>
      where_loop rest (app where_clauses ["n." ++ key ++ " = $" ++ key])
        (dict_set params key v)
  end.

(** [find_nodes], lines 195-210 *)
Definition find_nodes_statement (label : option string)
    (properties : option Dict) (limit : Z) : Statement :=
  let match_clause :=
    match label with
    | Some l => if truthy_str label then "MATCH (n:" ++ l ++ ")" else "MATCH (n)"
    | None => "MATCH (n)"
    end in
  let '(where_clauses, params) :=
    match properties with
    | Some p => if truthy_dict properties
                then where_loop p [] [("limit", VInt limit)]
                else ([], [("limit", VInt limit)])
    | None => ([], [("limit", VInt limit)])
    end in
  let where_clause :=
    match where_clauses with
    | [] => ""
    | _ :: _ => " WHERE " ++ join " AND " where_clauses
    end in
  mkStatement (match_clause ++ where_clause ++ " RETURN n LIMIT $limit") params.

(** The neo4j driver library and the database behind it.  Nothing of it
    is in the repository, so it is a parameter: it decides whether a handle
    can be made, whether a session opens, what a statement returns (or
    raises) and how the database changes, and whether closing raises. *)
Record Backend (Store : Type) := mkBackend {
  connect : option string -> option string * option string -> Store -> option Exn;
  open_session : Driver -> Store -> option Exn;
  execute : Statement -> Store -> Result (list Record_) * Store;
  shutdown : Driver -> Store -> option Exn
}.

Section Server.

Variable Store : Type.
Variable backend : Backend Store.
Variable config : Config.

(** The state the server code runs against. *)
Record World := mkWorld {
  driver : option Driver;     (* the module global [driver] *)
  store : Store;              (* the database *)
  created : nat;              (* handles made so far *)
  closed : list Driver;       (* handles closed so far, oldest first *)
  issued : list Statement     (* statements sent so far, oldest first *)
}.

Definition M (A : Type) : Type := World -> Result A * World.

Definition ret {A} (a : A) : M A := fun w => (Ok a, w).

Definition bind {A B} (m : M A) (f : A -> M B) : M B :=
  fun w => match m w with
           | (Ok a, w') => f a w'
           | (Raise e, w') => (Raise e, w')
           end.

(** [try: body except Exception as e: handler e] *)
Definition try_except {A} (body : M A) (handler : Exn -> M A) : M A :=
  fun w => match body w with
           | (Ok a, w') => (Ok a, w')
           | (Raise e, w') => handler e w'
           end.

Definition lift {A} (r : Result A) : M A := fun w => (r, w).

Notation "x <- m ;; k" := (bind m (fun x => k))
  (at level 61, m at next level, right associativity).
Notation "m ;;; k" := (bind m (fun _ => k))
  (at level 61, right associativity).

(** ** The driver library, as the code calls it *)

Definition set_driver (d : option Driver) : M unit :=
  fun w => (Ok tt, mkWorld d (store w) (created w) (closed w) (issued w)).

Definition get_driver_global : M (option Driver) :=
  fun w => (Ok (driver w), w).

(** [GraphDatabase.driver(uri, auth=auth)] *)
Definition GraphDatabase_driver (uri : option string)
    (auth : option string * option string) : M Driver :=
  fun w => match connect backend uri auth (store w) with
           | Some e => (Raise e, w)
           | None =>
               (Ok (mkDriver (created w) uri auth),
                mkWorld (driver w) (store w) (S (created w)) (closed w) (issued w))
           end.

(** [driver.session()], entered as a context manager; leaving the block
    closes the session, which is taken not to raise. *)
Definition Driver_session (d : Driver) : M unit :=
  fun w => match open_session backend d (store w) with
           | Some e => (Raise e, w)
           | None => (Ok tt, w)
           end.

(** [session.run(query, parameters)], with the result read to its end:
    the statement reaches the store, which answers with records or with
    an exception. *)
Definition Session_run (query : string) (parameters : Dict) : M (list Record_) :=
  fun w =>
    let st := mkStatement query parameters in
    let '(r, s') := execute backend st (store w) in
    (r, mkWorld (driver w) s' (created w) (closed w) (issued w ++ [st])%list).

(** [driver.close()] *)
Definition Driver_close (d : Driver) : M unit :=
  fun w => match shutdown backend d (store w) with
           | Some e => (Raise e, w)
           | None =>
               (Ok tt, mkWorld (driver w) (store w) (created w)
                         (closed w ++ [d])%list (issued w))
           end.

(** ** Connection manager ([server.py], lines 23-41) *)

Definition get_neo4j_driver : M Driver :=
  g <- get_driver_global ;;
  match g with
  | None =>
      d <- GraphDatabase_driver (NEO4J_URI config)
             (NEO4J_USERNAME config, NEO4J_PASSWORD config) ;;
      set_driver (Some d) ;;;
      ret d
  | Some d => ret d
  end.

Definition close_driver : M unit :=
  g <- get_driver_global ;;
  match g with
  | Some d => Driver_close d ;;; set_driver None
  | None => ret tt
  end.

Definition cleanup : M unit := close_driver.

(** ** The four tools

    Each tool is one [try] block with one [except Exception] handler; the
    block is named [<tool>_try] and the handler [<tool>_except]. *)

Definition run_cypher_query_try (query : string) (parameters : Dict) : M Dict :=
  d <- get_neo4j_driver ;;
  Driver_session d ;;;
  result <- Session_run query parameters ;;
  records <- lift (map_result convert_record result) ;;
  ret [("success", VBool true);
       ("records", VList (map VDict records));
       ("count", VInt (Z.of_nat (length records)));
       ("query", VStr query)].

Definition run_cypher_query_except (query : string) (e : Exn) : Dict :=
  [("success", VBool false);
   ("error", VStr (str e));
   ("query", VStr query)].

(** [run_cypher_query(query, parameters=None)] *)
Definition run_cypher_query (query : string) (parameters : option Dict) : M Dict :=
  let parameters := match parameters with Some p => p | None => [] end in
  try_except (run_cypher_query_try query parameters)
             (fun e => ret (run_cypher_query_except query e)).

Definition get_database_info_try : M Dict :=
  d <- get_neo4j_driver ;;
  Driver_session d ;;;
  result <- Session_run "CALL db.info()" [] ;;
  let db_info := single result in
  labels_result <- Session_run "CALL db.labels()" [] ;;
  labels <- lift (map_result (fun record => record_getitem record "label")
                    labels_result) ;;
  rel_types_result <- Session_run "CALL db.relationshipTypes()" [] ;;
  rel_types <- lift (map_result
                       (fun record => record_getitem record "relationshipType")
                       rel_types_result) ;;
  node_count_result <- Session_run "MATCH (n) RETURN count(n) as count" [] ;;
  node_count <- lift (single_getitem node_count_result "count") ;;
  rel_count_result <- Session_run "MATCH ()-[r]->() RETURN count(r) as count" [] ;;
  rel_count <- lift (single_getitem rel_count_result "count") ;;
  info <- lift (match db_info with
                | Some (c :: cs) => dict_of_record (c :: cs)
                | _ => Ok []
                end) ;;
  ret [("success", VBool true);
       ("database_info", VDict info);
       ("node_labels", VList labels);
       ("relationship_types", VList rel_types);
       ("node_count", node_count);
       ("relationship_count", rel_count)].

Definition get_database_info_except (e : Exn) : Dict :=
  [("success", VBool false);
   ("error", VStr (str e))].

(** [get_database_info()] *)
Definition get_database_info : M Dict :=
  try_except get_database_info_try
             (fun e => ret (get_database_info_except e)).

Definition create_node_try (label : string) (properties : Dict) : M Dict :=
  d <- get_neo4j_driver ;;
  let query := create_node_query label properties in
  Driver_session d ;;;
  result <- Session_run query properties ;;
  created_node <- lift (single_getitem result "n") ;;
  node <- lift (py_dict created_node) ;;
  labels <- lift (attr_labels created_node) ;;
  id <- lift (attr_id created_node) ;;
  ret [("success", VBool true);
       ("node", VDict node);
       ("labels", VList (map VStr labels));
       ("id", VInt id)].

Definition create_node_except (label : string) (properties : Dict) (e : Exn)
    : Dict :=
  [("success", VBool false);
   ("error", VStr (str e));
   ("label", VStr label);
   ("properties", VDict properties)].

(** [create_node(label, properties)] *)
Definition create_node (label : string) (properties : Dict) : M Dict :=
  try_except (create_node_try label properties)
             (fun e => ret (create_node_except label properties e)).

(** The body of the loop over the records in [find_nodes]. *)
Definition node_entry (record : Record_) : Result value :=
  rbind (record_getitem record "n") (fun node =>
  rbind (py_dict node) (fun properties =>
  rbind (attr_labels node) (fun labels =>
  rbind (attr_id node) (fun id =>
  Ok (VDict [("properties", VDict properties);
             ("labels", VList (map VStr labels));
             ("id", VInt id)]))))).

Definition find_nodes_try (label : option string) (properties : option Dict)
    (limit : Z) : M Dict :=
  d <- get_neo4j_driver ;;
  let st := find_nodes_statement label properties limit in
  Driver_session d ;;;
  result <- Session_run (stmt_text st) (stmt_params st) ;;
  nodes <- lift (map_result node_entry result) ;;
  ret [("success", VBool true);
       ("nodes", VList nodes);
       ("count", VInt (Z.of_nat (length nodes)));
       ("query", VStr (stmt_text st))].

Definition find_nodes_except (label : option string) (properties : option Dict)
    (e : Exn) : Dict :=
  [("success", VBool false);
   ("error", VStr (str e));
   ("label", opt_str label);
   ("properties", opt_dict properties)].

(** The value of [limit] when the caller leaves it out. *)
Definition default_limit : Z := 10.

(** [find_nodes(label=None, properties=None, limit=10)]; a [None] limit
    stands for the omitted argument. *)
Definition find_nodes (label : option string) (properties : option Dict)
    (limit : option Z) : M Dict :=
  let limit := match limit with Some l => l | None => default_limit end in
  try_except (find_nodes_try label properties limit)
             (fun e => ret (find_nodes_except label properties e)).

(** The connection is usable in [w]: the handle is there or can be made,
    and a session opens on it. *)
Definition connects (w : World) : Prop :=
  exists d w', get_neo4j_driver w = (Ok d, w')
               /\ open_session backend d (store w') = None.

(** [tool] is [body] under a handler: it returns normally in every world;
    what the body returned, flagged as a success, when the body returned,
    and [failure e], flagged as a failure and carrying [str(e)], when the
    body raised [e]. *)
Definition answers (tool body : M Dict) (failure : Exn -> Dict)
    (w : World) : Prop :=
  exists env w',
    tool w = (Ok env, w')
    /\ snd (body w) = w'
    /\ match fst (body w) with
       | Ok a => env = a /\ dict_get env "success" = Some (VBool true)
       | Raise e => env = failure e
                    /\ dict_get env "success" = Some (VBool false)
                    /\ dict_get env "error" = Some (VStr (str e))
       end.

(** [m] leaves the global [driver] and the count of handles alone. *)
Definition keeps_handle {A} (m : M A) : Prop :=
  forall w, driver (snd (m w)) = driver w /\ created (snd (m w)) = created w.

(** [m] touches neither the global [driver], nor the count of handles,
    nor the list of closed handles. *)
Definition quiet {A} (m : M A) : Prop :=
  forall w, driver (snd (m w)) = driver w
            /\ created (snd (m w)) = created w
            /\ closed (snd (m w)) = closed w.

(** The common shape of the four tools: acquire, open a session, go on,
    all under one handler. *)
Definition guarded (k : Driver -> M Dict) (h : Exn -> Dict) : M Dict :=
  try_except
    (bind get_neo4j_driver
       (fun d => bind (Driver_session d) (fun _ => k d)))
    (fun e => ret (h e)).

(** The part of [get_database_info] inside the session. *)
Definition info_session : M Dict :=
  bind (Session_run "CALL db.info()" []) (fun result =>
  bind (Session_run "CALL db.labels()" []) (fun labels_result =>
  bind (lift (map_result (fun record => record_getitem record "label")
                labels_result)) (fun labels =>
  bind (Session_run "CALL db.relationshipTypes()" [])
    (fun rel_types_result =>
  bind (lift (map_result
                (fun record => record_getitem record "relationshipType")
                rel_types_result)) (fun rel_types =>
  bind (Session_run "MATCH (n) RETURN count(n) as count" [])
    (fun node_count_result =>
  bind (lift (single_getitem node_count_result "count")) (fun node_count =>
  bind (Session_run "MATCH ()-[r]->() RETURN count(r) as count" [])
    (fun rel_count_result =>
  bind (lift (single_getitem rel_count_result "count")) (fun rel_count =>
  bind (lift (match single result with
              | Some (c :: cs) => dict_of_record (c :: cs)
              | _ => Ok []
              end)) (fun info =>
  ret [("success", VBool true);
       ("database_info", VDict info);
       ("node_labels", VList labels);
       ("relationship_types", VList rel_types);
       ("node_count", node_count);
       ("relationship_count", rel_count)])))))))))).

(** The store, in state [s], answers the statements [sts] sent one after
    the other with the record lists [answers], none raising, and is left
    in state [s']. *)
Fixpoint answered (sts : list Statement) (s : Store)
    (answers : list (list Record_)) (s' : Store) : Prop :=
  match sts, answers with
  | [], [] => s' = s
  | st :: sts', a :: answers' =>
      exists s1, execute backend st s = (Ok a, s1)
                 /\ answered sts' s1 answers' s'
  | _, _ => False
  end.

(** From [w] to [w']: no handle was closed, at most one was made, and a
    handle that was in the global is still there with none made. *)
Definition handle_safe (w w' : World) : Prop :=
  closed w' = closed w
  /\ created w <= created w' <= S (created w)
  /\ (forall d, driver w = Some d ->
        driver w' = Some d /\ created w' = created w).

End Server.

Arguments mkWorld {Store} _ _ _ _ _.

(** The five statements of [get_database_info], in the order of the
    source (lines 106-122); none takes a parameter. *)
Definition info_statements : list Statement :=
  [mkStatement "CALL db.info()" [];
   mkStatement "CALL db.labels()" [];
   mkStatement "CALL db.relationshipTypes()" [];
   mkStatement "MATCH (n) RETURN count(n) as count" [];
   mkStatement "MATCH ()-[r]->() RETURN count(r) as count" []].

(** What [get_database_info] reads in the answer to its statement number
    [i] (from 0) is there: the column [label] in every record of the
    answer to [db.labels()], [relationshipType] in every record of the
    answer to [db.relationshipTypes()], [count] in the first record of the
    answers to the two counting statements. *)
Definition info_readable (i : nat) (answer : list Record_) : Prop :=
  match i with
  | 1 => Forall (fun r => has_key r "label" = true) answer
  | 2 => Forall (fun r => has_key r "relationshipType" = true) answer
  | 3 | 4 => match answer with
             | r :: _ => has_key r "count" = true
             | [] => False
             end
  | _ => True
  end.

(** What the conversion loop of [run_cypher_query] leaves in a column that
    is no other object of the driver: the properties of a node or
    relationship, and any other value itself. *)
Definition unwrapped (v : value) : value :=
  match v with
  | VNode _ _ props | VRel _ _ props => VDict props
  | _ => v
  end.

(** A node as the store returns it: id, labels, properties. *)
Definition node_value (n : Z * list string * Dict) : value :=
  let '(id, labels, props) := n in VNode id labels props.

(** The entry [find_nodes] makes for a node. *)
Definition node_report (n : Z * list string * Dict) : value :=
  let '(id, labels, props) := n in
  VDict [("properties", VDict props);
         ("labels", VList (map VStr labels));
         ("id", VInt id)].

(** An object of the driver other than a node or a relationship. *)
Definition is_object (v : value) : bool :=
  match v with
  | VObject _ _ => true
  | _ => false
  end.

(** A column of a record after the loop. *)
Definition column (kv : string * value) : string * value :=
  (fst kv, unwrapped (snd kv)).

(** A column the loop turns into a plain value: a plain value, or a node
    or relationship whose properties are plain. *)
Definition shallow (v : value) : bool :=
  match v with
  | VNode _ _ props | VRel _ _ props => plain_dict props
  | _ => plain v
  end.

(** ** The client shim ([graph_agent.py], lines 62-71) *)

(** One item of [result.content]: a text item, or one without [.text]. *)
Inductive Content : Type :=
| TextContent (text : string)
| OtherContent.

(** The MCP client library, the network and the JSON decoder, as the shim
    meets them during one call.  Every step can raise.  When the block is
    left by an exception, the two context managers see it on the way out
    and hand on the exception that reaches the handler. *)
Record Transport := mkTransport {
  client_enter : string -> option Exn;          (* streamablehttp_client(url) *)
  session_enter : option Exn;                   (* ClientSession(read, write) *)
  initialize : option Exn;                      (* session.initialize() *)
  call_tool : string -> Dict -> Result (list Content);
  json_loads : string -> Result value;
  session_exit : option Exn;                    (* leaving normally *)
  client_exit : option Exn;
  unwind : Exn -> Exn                           (* leaving by an exception *)
}.

Definition guard (o : option Exn) : Result unit :=
  match o with Some e => Raise e | None => Ok tt end.

(** [result.content[0].text] *)
Definition first_text (content : list Content) : Result string :=
  match content with
  | [] => Raise (mkExn "IndexError" "list index out of range")
  | TextContent text :: _ => Ok text
  | OtherContent :: _ => Raise (AttributeError "text")
  end.

(** An [async with] block: enter, run the body, leave. *)
Definition with_block {A} (t : Transport) (enter exit : option Exn)
    (body : Result A) : Result A :=
  match enter with
  | Some e => Raise e
  | None =>
      match body with
      | Ok a => rbind (guard exit) (fun _ => Ok a)
      | Raise e => Raise (unwind t e)
      end
  end.

(** The tool object: [server_url] is its one field, with the default of
    the class. *)
Record Neo4jMCPTool := mkTool { server_url : string }.

Definition default_tool : Neo4jMCPTool := mkTool "http://localhost:8051/mcp".

Definition execute_mcp_call_try (t : Transport) (self : Neo4jMCPTool)
    (tool_name : string) (arguments : Dict) : Result value :=
  with_block t (client_enter t (server_url self)) (client_exit t)
    (with_block t (session_enter t) (session_exit t)
       (rbind (guard (initialize t)) (fun _ =>
        rbind (call_tool t tool_name arguments) (fun content =>
        rbind (first_text content) (fun text =>
        json_loads t text))))).

Definition execute_mcp_call_except (e : Exn) : value :=
  VDict [("success", VBool false); ("error", VStr (str e))].

(** [Neo4jMCPTool._execute_mcp_call(tool_name, arguments)] *)
Definition _execute_mcp_call (t : Transport) (self : Neo4jMCPTool)
    (tool_name : string) (arguments : Dict) : Result value :=
  match execute_mcp_call_try t self tool_name arguments with
  | Ok v => Ok v
  | Raise e => Ok (execute_mcp_call_except e)
  end.

(** A mapping that carries a boolean [success] flag. *)
Definition envelope_shaped (v : value) : bool :=
  match v with
  | VDict d => match dict_get d "success" with
               | Some (VBool _) => true
               | _ => false
               end
  | _ => false
  end.

(** Every step of the call went through, and the reply decoded to [v]. *)
Definition completes (t : Transport) (self : Neo4jMCPTool) (tool_name : string)
    (arguments : Dict) (v : value) : Prop :=
  client_enter t (server_url self) = None
  /\ session_enter t = None
  /\ initialize t = None
  /\ (exists content text,
        call_tool t tool_name arguments = Ok content
        /\ first_text content = Ok text
        /\ json_loads t text = Ok v)
  /\ session_exit t = None
  /\ client_exit t = None.

(** ** The client tools ([graph_agent.py], lines 74-148) *)

(** What the tools take from the Python runtime and is not in the
    repository: [json.dumps] with and without [indent=2] (it raises on a
    value it cannot write), the printed form of a float or a container,
    and whether a float is zero. *)
Record Runtime := mkRuntime {
  json_dumps : value -> Result string;
  json_dumps_indent : value -> Result string;
  repr_other : value -> string;
  float_nonzero : string -> bool
}.

Definition nl : string := String (ascii_of_nat 10) "".

(** [bool(v)]; a decoded JSON reply, which is all the client tools test,
    holds no object of the driver, whose truth goes by its length here. *)
Definition py_truthy (rt : Runtime) (v : value) : bool :=
  match v with
  | VNone => false
  | VBool b => b
  | VInt z => negb (Z.eqb z 0)
  | VFloat repr => float_nonzero rt repr
  | VStr s => negb (String.eqb s "")
  | VList items => match items with [] => false | _ :: _ => true end
  | VDict d | VNode _ _ d | VRel _ _ d =>
      match d with [] => false | _ :: _ => true end
  | VObject _ iter => match iter with Some [] => false | _ => true end
  end.

(** [str(v)], as an f-string prints a value *)
Definition py_str (rt : Runtime) (v : value) : string :=
  match v with
  | VNone => "None"
  | VBool true => "True"
  | VBool false => "False"
  | VInt z => NilZero.string_of_int (Z.to_int z)
  | VStr s => s
  | _ => repr_other rt v
  end.

(** [len(v)]; the characters of a string are counted as the model has
    them. *)
Definition py_len (v : value) : Result Z :=
  match v with
  | VList items => Ok (Z.of_nat (length items))
  | VDict d | VNode _ _ d | VRel _ _ d => Ok (Z.of_nat (length d))
  | VStr s => Ok (Z.of_nat (String.length s))
  | VObject _ (Some items) => Ok (Z.of_nat (length items))
  | _ => Raise (TypeError "object has no len()")
  end.

(** [result.get(key, default)] *)
Definition py_get (result : value) (key : string) (default : value)
    : Result value :=
  match result with
  | VDict d | VNode _ _ d | VRel _ _ d =>
      Ok (match dict_get d key with Some v => v | None => default end)
  | _ => Raise (AttributeError "get")
  end.


(** [asyncio.run(coroutine)]: the coroutine is run to its end. *)
Definition asyncio_run {A} (coroutine : Result A) : Result A := coroutine.

(** [CypherQueryTool._run(query, parameters=None)] *)
Definition CypherQueryTool_run (rt : Runtime) (t : Transport)
    (self : Neo4jMCPTool) (query : string) (parameters : option Dict)
    : Result string :=
  rbind (asyncio_run (_execute_mcp_call t self "run_cypher_query"
           [("query", VStr query);
            ("parameters", VDict (match parameters with
                                  | Some (kv :: rest) => kv :: rest
                                  | _ => []
                                  end))])) (fun result =>
  rbind (py_get result "success" VNone) (fun success =>
  if py_truthy rt success then
    rbind (py_get result "count" (VInt 0)) (fun count =>
    rbind (py_get result "records" (VList [])) (fun records =>
    rbind (json_dumps_indent rt records) (fun dumped =>
    Ok ("Query executed successfully. Found " ++ py_str rt count
        ++ " records." ++ nl ++ "Results: " ++ dumped))))
  else
    rbind (py_get result "error" (VStr "Unknown error")) (fun error =>
    Ok ("Query failed: " ++ py_str rt error)))).

(** [CreateNodeTool._run(label, properties)] *)
Definition CreateNodeTool_run (rt : Runtime) (t : Transport)
    (self : Neo4jMCPTool) (label : string) (properties : Dict)
    : Result string :=
  rbind (asyncio_run (_execute_mcp_call t self "create_node"
           [("label", VStr label);
            ("properties", VDict properties)])) (fun result =>
  rbind (py_get result "success" VNone) (fun success =>
  if py_truthy rt success then
    rbind (py_get result "id" VNone) (fun node_id =>
    rbind (json_dumps rt (VDict properties)) (fun dumped =>
    Ok ("Successfully created " ++ label ++ " node with ID "
        ++ py_str rt node_id ++ " and properties: " ++ dumped)))
  else
    rbind (py_get result "error" (VStr "Unknown error")) (fun error =>
    Ok ("Failed to create node: " ++ py_str rt error)))).

(** [FindNodesTool._run(label=None, properties=None, limit=10)]; a [None]
    limit stands for the omitted argument. *)
Definition FindNodesTool_run (rt : Runtime) (t : Transport)
    (self : Neo4jMCPTool) (label : option string) (properties : option Dict)
    (limit : option Z) : Result string :=
  let limit := match limit with Some l => l | None => 10%Z end in
  rbind (asyncio_run (_execute_mcp_call t self "find_nodes"
           [("label", opt_str label);
            ("properties", opt_dict properties);
            ("limit", VInt limit)])) (fun result =>
  rbind (py_get result "success" VNone) (fun success =>
  if py_truthy rt success then
    rbind (py_get result "nodes" (VList [])) (fun nodes =>
    rbind (py_len nodes) (fun n =>
    rbind (json_dumps_indent rt nodes) (fun dumped =>
    Ok ("Found " ++ py_str rt (VInt n) ++ " nodes:" ++ nl ++ dumped))))
  else
    rbind (py_get result "error" (VStr "Unknown error")) (fun error =>
    Ok ("Search failed: " ++ py_str rt error)))).

(** [DatabaseInfoTool._run()] *)
Definition DatabaseInfoTool_run (rt : Runtime) (t : Transport)
    (self : Neo4jMCPTool) : Result string :=
  rbind (asyncio_run (_execute_mcp_call t self "get_database_info" []))
    (fun result =>
  rbind (py_get result "success" VNone) (fun success =>
  if py_truthy rt success then
    rbind (py_get result "node_labels" (VList [])) (fun node_labels =>
    rbind (py_get result "relationship_types" (VList [])) (fun rel_types =>
    rbind (py_get result "node_count" (VInt 0)) (fun node_count =>
    rbind (py_get result "relationship_count" (VInt 0)) (fun rel_count =>
    rbind (json_dumps_indent rt
             (VDict [("node_labels", node_labels);
                     ("relationship_types", rel_types);
                     ("node_count", node_count);
                     ("relationship_count", rel_count)])) (fun dumped =>
    Ok ("Database Overview:" ++ nl ++ dumped))))))
  else
    rbind (py_get result "error" (VStr "Unknown error")) (fun error =>
    Ok ("Failed to get database info: " ++ py_str rt error)))).

(** The call [tool_name(arguments)] through the shim returns the mapping
    [env]: the server's answer came back as the server made it. *)
Definition delivers (t : Transport) (self : Neo4jMCPTool) (tool_name : string)
    (arguments : Dict) (env : Dict) : Prop :=
  _execute_mcp_call t self tool_name arguments = Ok (VDict env).

(** ** Stand-ins for the database, used to run the code on concrete calls *)

Module Demo.

Definition config : Config :=
  mkConfig (Some "bolt://localhost:7687") (Some "neo4j") (Some "secret").

(** A database that accepts every statement and answers with one record
    binding [n] to a new node carrying the bound parameters; the store
    counts the nodes made. *)
Definition accepting : Backend nat :=
  mkBackend
    (fun _ _ _ => None)
    (fun _ _ => None)
    (fun st s => (Ok [[("n", VNode (Z.of_nat s) [] (stmt_params st))]], S s))
    (fun _ _ => None).

(** A database that answers every statement with one record whose column
    [ns] is a list holding one node, as [RETURN collect(n) AS ns] does. *)
Definition collecting : Backend nat :=
  mkBackend
    (fun _ _ _ => None)
    (fun _ _ => None)
    (fun _ s =>
       (Ok [[("ns", VList [VNode 7 ["Person"] [("name", VStr "Ada")]])]], s))
    (fun _ _ => None).

(** A database that cannot be reached. *)
Definition unreachable : Backend nat :=
  mkBackend
    (fun _ _ _ => Some (mkExn "ServiceUnavailable" "Unable to connect"))
    (fun _ _ => None)
    (fun _ s => (Raise (mkExn "ServiceUnavailable" "Unable to connect"), s))
    (fun _ _ => None).

(** The state of a server that has just been started. *)
Definition fresh : World nat := mkWorld None 0 0 [] [].

(** A server whose tool answers with the given text. *)
Definition answering (text : string) (decoded : Result value) : Transport :=
  mkTransport (fun _ => None) None None
    (fun _ _ => Ok [TextContent text]) (fun _ => decoded)
    None None (fun e => e).

(** No server is listening. *)
Definition refused : Transport :=
  mkTransport (fun _ => Some (mkExn "ConnectError" "All connection attempts failed"))
    None None (fun _ _ => Ok []) (fun _ => Ok VNone)
    None None (fun e => e).

(** A runtime whose [json.dumps] writes nothing useful; the failure paths
    of the client tools do not call it. *)
Definition runtime : Runtime :=
  mkRuntime (fun _ => Ok "{}") (fun _ => Ok "{}") (fun _ => "?") (fun _ => true).

(** A database that accepts the connection and answers every statement
    with no record. *)
Definition empty : Backend nat :=
  mkBackend
    (fun _ _ _ => None)
    (fun _ _ => None)
    (fun _ s => (Ok [], s))
    (fun _ _ => None).

(** A database that accepts the connection and rejects every statement. *)
Definition rejecting : Backend nat :=
  mkBackend
    (fun _ _ _ => None)
    (fun _ _ => None)
    (fun _ s => (Raise (mkExn "ClientError" "Unknown procedure"), s))
    (fun _ _ => None).

(** A driver library whose [close] raises. *)
Definition stuck : Backend nat :=
  mkBackend
    (fun _ _ _ => None)
    (fun _ _ => None)
    (fun _ s => (Ok [], s))
    (fun _ _ => Some (mkExn "RuntimeError" "close failed")).

End Demo.

(** * Properties *)

(** ** Strings and dicts *)

Section StringFacts.

Lemma prefix_append (s t : string) : String.prefix s (s ++ t) = true.
Proof.
  induction s as [|c s IH]; simpl.
  - now destruct t.
  - destruct (Ascii.ascii_dec c c) as [_|ne]; [exact IH | now elim ne].
Qed.

Lemma contains_prefix (sub s : string) :
  String.prefix sub s = true -> contains sub s = true.
Proof. intros P. destruct s; cbn [contains]; now rewrite P. Qed.

Lemma contains_here (sub post : string) : contains sub (sub ++ post) = true.
Proof. apply contains_prefix, prefix_append. Qed.

Lemma contains_skip (pre sub s : string) :
  contains sub s = true -> contains sub (pre ++ s) = true.
Proof.
  intros H. induction pre as [|c pre IH]; cbn [append contains]; [exact H|].
  rewrite IH. now destruct (String.prefix sub (String c (pre ++ s))).
Qed.

Lemma append_nil_r (s : string) : s ++ "" = s.
Proof. induction s; simpl; congruence. Qed.

Lemma append_assoc (a b c : string) : (a ++ b) ++ c = a ++ (b ++ c).
Proof. induction a; simpl; congruence. Qed.

Lemma prefix_extend (sub u post : string) :
  String.prefix sub u = true -> String.prefix sub (u ++ post) = true.
Proof.
  revert u. induction sub as [|a sub IH]; intros u.
  - intros _. now destruct (u ++ post).
  - destruct u as [|b u]; simpl; [discriminate|].
    destruct (Ascii.ascii_dec a b); [apply IH | discriminate].
Qed.

Lemma contains_left (sub s post : string) :
  contains sub s = true -> contains sub (s ++ post) = true.
Proof.
  induction s as [|c s IH]; cbn [append contains].
  - destruct sub; simpl; [intros _|discriminate].
    now destruct post.
  - destruct (String.prefix sub (String c s)) eqn:P.
    + intros _.
      change (String c (s ++ post)) with (String c s ++ post).
      now rewrite (prefix_extend _ _ post P).
    + intros H. rewrite (IH H).
      now destruct (String.prefix sub (String c (s ++ post))).
Qed.

Lemma contains_join (sep x : string) (parts : list string) :
  In x parts -> contains x (join sep parts) = true.
Proof.
  unfold join. induction parts as [|p ps IH]; simpl; [tauto|].
  intros [->|Hin].
  - destruct ps; [|apply contains_here].
    pose proof (contains_here x "") as H. now rewrite append_nil_r in H.
  - destruct ps as [|q qs]; [destruct Hin|].
    apply contains_skip, contains_skip. exact (IH Hin).
Qed.



Lemma dict_get_dict_set_other (d : Dict) (k k' : string) (v : value) :
  k <> k' -> dict_get (dict_set d k v) k' = dict_get d k'.
Proof.
  intros ne. induction d as [|[k0 v0] d IH]; simpl.
  - destruct (String.eqb_spec k k'); [contradiction|reflexivity].
  - destruct (String.eqb_spec k0 k) as [->|]; simpl.
    + destruct (String.eqb_spec k k'); [contradiction|reflexivity].
    + now rewrite IH.
Qed.

End StringFacts.

(** ** Stepping through the monad *)

Section ServerFacts.

Variable Store : Type.
Variable backend : Backend Store.
Variable config : Config.

Abbreviation World := (World Store).
Abbreviation M := (M Store).

Lemma bind_ok_inv {A B} (m : M A) (f : A -> M B) (w w2 : World) (b : B) :
  bind m f w = (Ok b, w2) ->
  exists a w1, m w = (Ok a, w1) /\ f a w1 = (Ok b, w2).
Proof.
  unfold bind. destruct (m w) as [[a|e] w1]; intros H.
  - now exists a, w1.
  - discriminate.
Qed.

Lemma get_neo4j_driver_cached (w : World) (d : Driver) :
  driver w = Some d -> get_neo4j_driver backend config w = (Ok d, w).
Proof.
  intros H. unfold get_neo4j_driver, bind, get_driver_global, ret.
  now rewrite H.
Qed.

Lemma get_neo4j_driver_creates (w : World) :
  driver w = None ->
  connect backend (NEO4J_URI config)
    (NEO4J_USERNAME config, NEO4J_PASSWORD config) (store w) = None ->
  let d := mkDriver (created w) (NEO4J_URI config)
             (NEO4J_USERNAME config, NEO4J_PASSWORD config) in
  get_neo4j_driver backend config w
  = (Ok d, mkWorld (Some d) (store w) (S (created w)) (closed w) (issued w)).
Proof.
  intros Hn Hc. unfold get_neo4j_driver, bind, get_driver_global,
    GraphDatabase_driver, set_driver, ret.
  rewrite Hn, Hc. reflexivity.
Qed.

Lemma get_neo4j_driver_frame (w w' : World) (r : Result Driver) :
  get_neo4j_driver backend config w = (r, w') ->
  store w' = store w /\ issued w' = issued w /\ closed w' = closed w.
Proof.
  unfold get_neo4j_driver, bind, get_driver_global, GraphDatabase_driver,
    set_driver, ret.
  destruct (driver w); [intros [= <- <-]; auto|].
  destruct (connect backend _ _ (store w)); intros [= <- <-]; auto.
Qed.

(** Runs a tool up to its [session.run] in a world where the connection
    is usable, then splits on the store's answer and on every later step. *)
Ltac enter_tool Hd Hs :=
  unfold try_except; unfold bind at 1; rewrite Hd; cbv zeta;
  unfold bind at 1, Driver_session; rewrite Hs.

Ltac split_steps :=
  repeat match goal with
         | |- context [match ?r with Ok _ => _ | Raise _ => _ end] =>
             destruct r; simpl
         end.

Lemma create_node_trace (label : string) (properties : Dict) (w : World) :
  connects backend config w ->
  issued (snd (create_node backend config label properties w))
  = (issued w
     ++ [mkStatement (create_node_query label properties) properties])%list.
Proof.
  intros (d & w' & Hd & Hs).
  destruct (get_neo4j_driver_frame _ Hd) as (_ & Hi & _).
  unfold create_node, create_node_try. enter_tool Hd Hs.
  unfold bind, Session_run, lift, ret.
  destruct (execute backend _ (store w')) as [[rs|e] s']; simpl;
    split_steps; now rewrite Hi.
Qed.

Lemma find_nodes_trace (label : option string) (properties : option Dict)
    (limit : option Z) (w : World) :
  connects backend config w ->
  issued (snd (find_nodes backend config label properties limit w))
  = (issued w
     ++ [find_nodes_statement label properties
           (match limit with Some l => l | None => default_limit end)])%list.
Proof.
  intros (d & w' & Hd & Hs).
  destruct (get_neo4j_driver_frame _ Hd) as (_ & Hi & _).
  unfold find_nodes, find_nodes_try. enter_tool Hd Hs.
  unfold bind, Session_run, lift, ret.
  destruct (find_nodes_statement label properties _) as [text params]; simpl.
  destruct (execute backend _ (store w')) as [[rs|e] s']; simpl;
    split_steps; now rewrite Hi.
Qed.

Lemma create_node_offline (label : string) (properties : Dict) (w : World) :
  ~ connects backend config w ->
  issued (snd (create_node backend config label properties w)) = issued w.
Proof.
  intros Hn. unfold create_node, try_except, create_node_try.
  unfold bind at 1.
  destruct (get_neo4j_driver backend config w) as [[d|e] w'] eqn:Hd;
    destruct (get_neo4j_driver_frame _ Hd) as (_ & Hi & _); [|exact Hi].
  cbv zeta. unfold bind at 1, Driver_session.
  destruct (open_session backend d (store w')) eqn:Hs; [exact Hi|].
  elim Hn. now exists d, w'.
Qed.

Lemma find_nodes_offline (label : option string) (properties : option Dict)
    (limit : option Z) (w : World) :
  ~ connects backend config w ->
  issued (snd (find_nodes backend config label properties limit w)) = issued w.
Proof.
  intros Hn. unfold find_nodes, try_except, find_nodes_try.
  unfold bind at 1.
  destruct (get_neo4j_driver backend config w) as [[d|e] w'] eqn:Hd;
    destruct (get_neo4j_driver_frame _ Hd) as (_ & Hi & _); [|exact Hi].
  cbv zeta. unfold bind at 1, Driver_session.
  destruct (open_session backend d (store w')) eqn:Hs; [exact Hi|].
  elim Hn. now exists d, w'.
Qed.

(** When the store answers the creation statement with the new node, the
    tool reports it. *)
Lemma create_node_reports (label : string) (properties : Dict) (w : World)
    (id : Z) (labels : list string) (props : Dict) (s' : Store) :
  connects backend config w ->
  execute backend (mkStatement (create_node_query label properties) properties)
    (store w) = (Ok [[("n", VNode id labels props)]], s') ->
  fst (create_node backend config label properties w)
  = Ok [("success", VBool true);
        ("node", VDict props);
        ("labels", VList (map VStr labels));
        ("id", VInt id)].
Proof.
  intros (d & w' & Hd & Hs) Hx.
  destruct (get_neo4j_driver_frame _ Hd) as (Hst & _ & _).
  unfold create_node, create_node_try. enter_tool Hd Hs.
  unfold bind, Session_run, lift, ret. rewrite Hst, Hx. reflexivity.
Qed.

(** [find_nodes] reports the nodes of the store's answer, one entry for
    each record and in the store's order; which nodes those are is for the
    store to say. *)
Lemma find_nodes_reports (label : option string) (properties : option Dict)
    (limit : Z) (w : World) (rs : list Record_) (nodes : list value)
    (s' : Store) :
  connects backend config w ->
  execute backend (find_nodes_statement label properties limit) (store w)
  = (Ok rs, s') ->
  map_result node_entry rs = Ok nodes ->
  fst (find_nodes backend config label properties (Some limit) w)
  = Ok [("success", VBool true);
        ("nodes", VList nodes);
        ("count", VInt (Z.of_nat (length nodes)));
        ("query", VStr (stmt_text (find_nodes_statement label properties limit)))].
Proof.
  intros (d & w' & Hd & Hs) Hx Hn.
  destruct (get_neo4j_driver_frame _ Hd) as (Hst & _ & _).
  unfold find_nodes, find_nodes_try. enter_tool Hd Hs.
  unfold bind, Session_run, lift, ret.
  destruct (find_nodes_statement label properties limit) as [text params].
  cbn [stmt_text stmt_params]. rewrite Hst, Hx, Hn. reflexivity.
Qed.

Lemma node_entry_node (id : Z) (labels : list string) (props : Dict)
    (others : Record_) :
  node_entry (("n", VNode id labels props) :: others)
  = Ok (VDict [("properties", VDict props);
               ("labels", VList (map VStr labels));
               ("id", VInt id)]).
Proof. reflexivity. Qed.

End ServerFacts.

(** ** Labels go into the statement unchecked (C1) *)

Section ReadingTheAnswer.

Lemma single_getitem_class (result : list Record_) (key : string) (e : Exn) :
  single_getitem result key = Raise e -> In (exn_class e) builtin_classes.
Proof.
  unfold single_getitem, single, record_getitem.
  destruct result as [|record rest]; simpl.
  - intros [= <-]. simpl. tauto.
  - destruct (dict_get record key); [discriminate|].
    intros [= <-]. simpl. tauto.
Qed.

Lemma as_pair_class (index : nat) (item : value) (e : Exn) :
  as_pair index item = Raise e -> In (exn_class e) builtin_classes.
Proof.
  unfold as_pair.
  repeat match goal with
         | |- context [match ?x with _ => _ end] => destruct x
         end;
    intros H; first [discriminate H | injection H as <-; simpl; tauto].
Qed.

Lemma dict_of_pairs_class (items : list value) (index : nat) (acc : Dict)
    (e : Exn) :
  dict_of_pairs index items acc = Raise e -> In (exn_class e) builtin_classes.
Proof.
  revert index acc. induction items as [|item items IH]; intros index acc; simpl.
  - discriminate.
  - destruct (as_pair index item) as [[k v]|e0] eqn:Hp.
    + apply IH.
    + intros [= <-]. exact (as_pair_class _ _ Hp).
Qed.

Lemma py_dict_class (v : value) (e : Exn) :
  py_dict v = Raise e -> In (exn_class e) builtin_classes.
Proof.
  unfold py_dict.
  destruct v; simpl; try discriminate;
    try (intros [= <-]; simpl; tauto);
    try apply dict_of_pairs_class.
  destruct iter; [apply dict_of_pairs_class | intros [= <-]; simpl; tauto].
Qed.

Lemma attr_labels_class (v : value) (e : Exn) :
  attr_labels v = Raise e -> In (exn_class e) builtin_classes.
Proof. destruct v; simpl; try discriminate; intros [= <-]; simpl; tauto. Qed.

Lemma attr_id_class (v : value) (e : Exn) :
  attr_id v = Raise e -> In (exn_class e) builtin_classes.
Proof. destruct v; simpl; try discriminate; intros [= <-]; simpl; tauto. Qed.

Lemma node_entry_class (record : Record_) (e : Exn) :
  node_entry record = Raise e -> In (exn_class e) builtin_classes.
Proof.
  unfold node_entry, record_getitem.
  destruct (dict_get record "n") as [node|]; simpl;
    [|intros [= <-]; simpl; tauto].
  destruct (py_dict node) eqn:Hd; simpl;
    [|intros [= <-]; exact (py_dict_class _ Hd)].
  destruct (attr_labels node) eqn:Hl; simpl;
    [|intros [= <-]; exact (attr_labels_class _ Hl)].
  destruct (attr_id node) eqn:Hi; simpl;
    [discriminate|intros [= <-]; exact (attr_id_class _ Hi)].
Qed.

Lemma map_result_raise {A B} (f : A -> Result B) (l : list A) (e : Exn) :
  map_result f l = Raise e -> exists x, In x l /\ f x = Raise e.
Proof.
  induction l as [|x l IH]; simpl; [discriminate|].
  destruct (f x) eqn:Hx; simpl.
  - destruct (map_result f l); simpl; [discriminate|].
    intros [= <-]. destruct (IH eq_refl) as (y & Hin & Hy). eauto.
  - intros [= <-]. eauto.
Qed.

End ReadingTheAnswer.

(** C1, as the code has it.  Neither [create_node] nor [find_nodes] checks
    the label: for every label string, identifier-safe or not, each of them
    sends exactly one statement once the connection is usable, with the
    label written into the text as it came ([find_nodes] reads the empty
    label as no label).  Neither raises a [ValidationError] of its own: an
    exception inside the tool is the one the store raised for the
    statement, or a [TypeError], [KeyError], [AttributeError] or
    [ValueError] raised while the store's answer is read.  When the store
    answers the creation statement with the new node, [create_node] reports
    success. *)
Theorem label_is_not_validated
    (Store : Type) (backend : Backend Store) (config : Config)
    (w : World Store) (label : string) (properties : Dict)
    (filter : option Dict) (limit : option Z) :
  connects backend config w ->
  issued (snd (create_node backend config label properties w))
  = app (issued w)
       [mkStatement
           ("CREATE (n:" ++ label ++ " {"
            ++ join ", " (map (fun key => key ++ ": $" ++ key) (keys properties))
            ++ "}) RETURN n")
           properties]
  /\ (exists rest params,
        issued (snd (find_nodes backend config (Some label) filter limit w))
        = app (issued w)
       [mkStatement
                 ((if String.eqb label "" then "MATCH (n)"
                   else "MATCH (n:" ++ label ++ ")") ++ rest)
                 params])
  /\ (forall id labels props s',
        execute backend
          (mkStatement (create_node_query label properties) properties)
          (store w) = (Ok [[("n", VNode id labels props)]], s') ->
        fst (create_node backend config label properties w)
        = Ok [("success", VBool true);
              ("node", VDict props);
              ("labels", VList (map VStr labels));
              ("id", VInt id)])
  /\ (forall e w',
        create_node_try backend config label properties w = (Raise e, w') ->
        (exists s',
           execute backend
             (mkStatement (create_node_query label properties) properties)
             (store w) = (Raise e, s'))
        \/ In (exn_class e) builtin_classes)
  /\ (forall e w',
        find_nodes_try backend config (Some label) filter
          (match limit with Some l => l | None => default_limit end) w
        = (Raise e, w') ->
        (exists s',
           execute backend
             (find_nodes_statement (Some label) filter
                (match limit with Some l => l | None => default_limit end))
             (store w) = (Raise e, s'))
        \/ In (exn_class e) builtin_classes).
Proof.
  intros Hc. split; [|split; [|split; [|split]]].
  - exact (create_node_trace label properties Hc).
  - rewrite (find_nodes_trace (Some label) filter limit Hc).
    unfold find_nodes_statement, truthy_str.
    destruct (match filter with
              | Some p => if truthy_dict filter
                          then where_loop p [] [("limit", VInt _)]
                          else ([], [("limit", VInt _)])
              | None => ([], [("limit", VInt _)])
              end) as [wc params].
    exists (match wc with
            | [] => ""
            | _ :: _ => " WHERE " ++ join " AND " wc
            end ++ " RETURN n LIMIT $limit"), params.
    now destruct (String.eqb label "").
  - intros id labels props s' Hx.
    exact (create_node_reports label properties Hc Hx).
  - destruct Hc as (d & w0 & Hd & Hs).
    pose proof Hd as Hfr. apply get_neo4j_driver_frame in Hfr.
    destruct Hfr as (Hst & _ & _).
    intros e w'. unfold create_node_try. unfold bind at 1. rewrite Hd.
    cbv zeta. unfold bind at 1, Driver_session. rewrite Hs.
    unfold bind, Session_run, lift, ret. rewrite Hst.
    destruct (execute backend _ (store w)) as [[rs|e0] s1] eqn:Hx.
    + destruct (single_getitem rs "n") as [node|e1] eqn:H1;
        [|intros [= <- _]; right; exact (single_getitem_class _ _ H1)].
      destruct (py_dict node) as [props|e2] eqn:H2;
        [|intros [= <- _]; right; exact (py_dict_class _ H2)].
      destruct (attr_labels node) as [ls|e3] eqn:H3;
        [|intros [= <- _]; right; exact (attr_labels_class _ H3)].
      destruct (attr_id node) as [i|e4] eqn:H4;
        [discriminate|intros [= <- _]; right; exact (attr_id_class _ H4)].
    + intros [= <- _]. left. now exists s1.
  - destruct Hc as (d & w0 & Hd & Hs).
    pose proof Hd as Hfr. apply get_neo4j_driver_frame in Hfr.
    destruct Hfr as (Hst & _ & _).
    intros e w'. unfold find_nodes_try. unfold bind at 1. rewrite Hd.
    cbv zeta. unfold bind at 1, Driver_session. rewrite Hs.
    unfold bind, Session_run, lift, ret. rewrite Hst.
    destruct (find_nodes_statement (Some label) filter _) as [text params].
    cbn [stmt_text stmt_params].
    destruct (execute backend _ (store w)) as [[rs|e0] s1] eqn:Hx.
    + destruct (map_result node_entry rs) as [nodes|e1] eqn:H1;
        [discriminate|].
      intros [= <- _]. right.
      destruct (map_result_raise _ _ H1) as (r & _ & Hr).
      exact (node_entry_class _ Hr).
    + intros [= <- _]. left. now exists s1.
Qed.

Lemma demo_connects : connects Demo.accepting Demo.config Demo.fresh.
Proof. do 2 eexists. split; reflexivity. Qed.

Lemma label_is_not_validated_witness :
  connects Demo.accepting Demo.config Demo.fresh
  /\ issued (snd (create_node Demo.accepting Demo.config "Person"
                    [("name", VStr "Ada")] Demo.fresh))
     = [mkStatement "CREATE (n:Person {name: $name}) RETURN n"
          [("name", VStr "Ada")]].
Proof.
  split; [exact demo_connects|].
  exact (proj1 (label_is_not_validated "Person" [("name", VStr "Ada")]
                  None None demo_connects)).
Defined.

(** C1 as stated fails: a label with a character outside the identifier
    pattern is accepted by both tools, and each sends its statement. *)
Lemma label_validation_counterexample :
  identifier_safe "Person:Admin" = false
  /\ create_node Demo.accepting Demo.config "Person:Admin"
       [("name", VStr "Ada")] Demo.fresh
     = (Ok [("success", VBool true);
            ("node", VDict [("name", VStr "Ada")]);
            ("labels", VList []);
            ("id", VInt 0)],
        mkWorld
          (Some (mkDriver 0 (Some "bolt://localhost:7687")
                   (Some "neo4j", Some "secret")))
          1%nat 1%nat []
          [mkStatement "CREATE (n:Person:Admin {name: $name}) RETURN n"
             [("name", VStr "Ada")]])
  /\ issued (snd (find_nodes Demo.accepting Demo.config (Some "Person:Admin")
                    None None Demo.fresh))
     = [mkStatement "MATCH (n:Person:Admin) RETURN n LIMIT $limit"
          [("limit", VInt 10)]].
Proof. repeat split. Qed.

(** ** Property values stay out of the statement text (C2) *)

Lemma create_node_query_keys (label : string) (p1 p2 : Dict) :
  keys p1 = keys p2 -> create_node_query label p1 = create_node_query label p2.
Proof. unfold create_node_query. now intros ->. Qed.

(** C2, as the code has it.  For an identifier-safe label and two property
    maps that list the same keys in the same order, [create_node] (with the
    connection usable) sends exactly one statement for each map, the two
    texts are one and the same, and each map travels whole as the bound
    parameters: the values never reach the text. *)
Theorem create_node_text_ignores_values
    (Store : Type) (backend : Backend Store) (config : Config)
    (w : World Store) (label : string) (p1 p2 : Dict) :
  identifier_safe label = true ->
  keys p1 = keys p2 ->
  connects backend config w ->
  exists text,
    issued (snd (create_node backend config label p1 w))
    = app (issued w) [mkStatement text p1]
    /\ issued (snd (create_node backend config label p2 w))
       = app (issued w) [mkStatement text p2].
Proof.
  intros _ Hk Hc. exists (create_node_query label p1). split.
  - apply create_node_trace, Hc.
  - rewrite (create_node_query_keys label p1 p2 Hk). apply create_node_trace, Hc.
Qed.

Lemma create_node_text_ignores_values_witness :
  identifier_safe "Person" = true
  /\ keys [("name", VStr "Ada")] = keys [("name", VStr "x}) DETACH DELETE n //")]
  /\ connects Demo.accepting Demo.config Demo.fresh
  /\ exists text,
       issued (snd (create_node Demo.accepting Demo.config "Person"
                      [("name", VStr "Ada")] Demo.fresh))
       = [mkStatement text [("name", VStr "Ada")]]
       /\ issued (snd (create_node Demo.accepting Demo.config "Person"
                         [("name", VStr "x}) DETACH DELETE n //")] Demo.fresh))
          = [mkStatement text [("name", VStr "x}) DETACH DELETE n //")]].
Proof.
  split; [reflexivity|]. split; [reflexivity|]. split; [exact demo_connects|].
  exact (create_node_text_ignores_values "Person"
           [("name", VStr "Ada")] [("name", VStr "x}) DETACH DELETE n //")]
           eq_refl eq_refl demo_connects).
Defined.

(** C2 as stated fails: a dict lists its keys in insertion order, so two
    maps with the same key set but another order give two texts. *)
Lemma same_key_set_counterexample :
  identifier_safe "Person" = true
  /\ same_key_set [("name", VStr "Ada"); ("age", VInt 36)]
                  [("age", VInt 36); ("name", VStr "Ada")]
  /\ issued (snd (create_node Demo.accepting Demo.config "Person"
                    [("name", VStr "Ada"); ("age", VInt 36)] Demo.fresh))
     = [mkStatement "CREATE (n:Person {name: $name, age: $age}) RETURN n"
          [("name", VStr "Ada"); ("age", VInt 36)]]
  /\ issued (snd (create_node Demo.accepting Demo.config "Person"
                    [("age", VInt 36); ("name", VStr "Ada")] Demo.fresh))
     = [mkStatement "CREATE (n:Person {age: $age, name: $name}) RETURN n"
          [("age", VInt 36); ("name", VStr "Ada")]]
  /\ "CREATE (n:Person {name: $name, age: $age}) RETURN n"
     <> "CREATE (n:Person {age: $age, name: $name}) RETURN n".
Proof.
  split; [reflexivity|]. split.
  - intros k; simpl; tauto.
  - repeat split. discriminate.
Qed.

(** ** Property keys are written into the text as they come (C3) *)

Lemma where_loop_clauses (items : Dict) (wc : list string) (params : Dict) :
  fst (where_loop items wc params)
  = app wc (map (fun key => "n." ++ key ++ " = $" ++ key) (keys items)).
Proof.
  revert wc params. induction items as [|[k v] items IH]; intros wc params; simpl.
  - now rewrite app_nil_r.
  - rewrite IH, <- app_assoc. reflexivity.
Qed.

Lemma create_node_query_has_key (label key : string) (properties : Dict) :
  In key (keys properties) ->
  contains (key ++ ": $" ++ key) (create_node_query label properties) = true.
Proof.
  intros Hin. unfold create_node_query.
  apply contains_skip, contains_skip, contains_skip, contains_left.
  apply contains_join.
  exact (in_map (fun k => k ++ ": $" ++ k) _ _ Hin).
Qed.

Lemma find_nodes_statement_has_key (label : option string) (key : string)
    (filter : Dict) (limit : Z) :
  In key (keys filter) ->
  contains ("n." ++ key ++ " = $" ++ key)
    (stmt_text (find_nodes_statement label (Some filter) limit)) = true.
Proof.
  intros Hin. unfold find_nodes_statement.
  destruct filter as [|kv filter]; [destruct Hin|].
  cbn [truthy_dict].
  pose proof (where_loop_clauses (kv :: filter) [] [("limit", VInt limit)]) as Hw.
  destruct (where_loop (kv :: filter) [] [("limit", VInt limit)]) as [wc params].
  cbn [fst app] in Hw. subst wc. cbn [stmt_text].
  apply contains_skip.
  change (map _ (keys (kv :: filter)))
    with (("n." ++ fst kv ++ " = $" ++ fst kv)
          :: map (fun k => "n." ++ k ++ " = $" ++ k) (keys filter)).
  cbv iota. apply contains_left, contains_skip, contains_join.
  exact (in_map (fun k => "n." ++ k ++ " = $" ++ k) _ _ Hin).
Qed.


Lemma where_loop_other_key (items : Dict) (wc : list string) (params : Dict)
    (k : string) :
  ~ In k (keys items) ->
  dict_get (snd (where_loop items wc params)) k = dict_get params k.
Proof.
  revert wc params. induction items as [|[k0 v0] items IH]; intros wc params Hn.
  - reflexivity.
  - simpl in *. rewrite IH by tauto.
    apply dict_get_dict_set_other. intros ->. tauto.
Qed.

Lemma dict_get_dict_set_same (d : Dict) (k : string) (v : value) :
  dict_get (dict_set d k v) k = Some v.
Proof.
  induction d as [|[k0 v0] d IH]; simpl.
  - now rewrite String.eqb_refl.
  - destruct (String.eqb k0 k) eqn:E; simpl; now rewrite E.
Qed.

Lemma where_loop_binds (items : Dict) (wc : list string) (params : Dict)
    (k : string) (v : value) :
  NoDup (keys items) ->
  In (k, v) items ->
  dict_get (snd (where_loop items wc params)) k = Some v.
Proof.
  revert wc params.
  induction items as [|[k0 v0] items IH]; intros wc params Hnd Hin;
    [destruct Hin|].
  simpl in Hnd. inversion Hnd as [|? ? Hnotin Hnd']; subst.
  destruct Hin as [[= -> ->]|Hin]; simpl.
  - rewrite where_loop_other_key by exact Hnotin.
    apply dict_get_dict_set_same.
  - now apply IH.
Qed.

Lemma find_nodes_text_keys (label : option string) (p p' : Dict)
    (limit limit' : Z) :
  keys p = keys p' ->
  stmt_text (find_nodes_statement label (Some p) limit)
  = stmt_text (find_nodes_statement label (Some p') limit').
Proof.
  intros Hk. unfold find_nodes_statement.
  destruct p as [|kv p], p' as [|kv' p']; try discriminate Hk; [reflexivity|].
  cbn [truthy_dict].
  pose proof (where_loop_clauses (kv :: p) [] [("limit", VInt limit)]) as H1.
  pose proof (where_loop_clauses (kv' :: p') [] [("limit", VInt limit')]) as H2.
  destruct (where_loop (kv :: p) [] [("limit", VInt limit)]) as [wc1 q1].
  destruct (where_loop (kv' :: p') [] [("limit", VInt limit')]) as [wc2 q2].
  cbn [fst app] in H1, H2. subst wc1 wc2. now rewrite Hk.
Qed.

Lemma find_nodes_statement_value (label : option string) (filter : Dict)
    (limit : Z) (k : string) (v : value) :
  NoDup (keys filter) ->
  In (k, v) filter ->
  dict_get (stmt_params (find_nodes_statement label (Some filter) limit)) k
  = Some v.
Proof.
  intros Hnd Hin. unfold find_nodes_statement.
  destruct filter as [|kv filter]; [destruct Hin|].
  cbn [truthy_dict].
  pose proof (where_loop_binds (kv :: filter) [] [("limit", VInt limit)]
                k v Hnd Hin) as H.
  destruct (where_loop (kv :: filter) [] [("limit", VInt limit)]) as [wc params].
  exact H.
Qed.

(** C3, as the code has it.  Property keys are not checked: in every
    statement that [create_node] or [find_nodes] sends, each key of the
    property map, or of the filter map, stands in the text exactly as the
    caller wrote it, as [key: $key] in a creation and as [n.key = $key] in
    a lookup.  Only the values are kept out of the text and travel in the
    bound parameters: the text is the same for every map with these keys
    in this order, whatever its values; [create_node] binds the property
    map itself, and [find_nodes] binds each filter value under its key
    (the keys of a dict being distinct). *)
Theorem keys_are_written_verbatim
    (Store : Type) (backend : Backend Store) (config : Config)
    (w : World Store) (label : string) (properties : Dict)
    (flabel : option string) (filter : Dict) (limit : option Z) (key : string) :
  connects backend config w ->
  (In key (keys properties) ->
   exists st,
     issued (snd (create_node backend config label properties w))
     = app (issued w) [st]
     /\ contains (key ++ ": $" ++ key) (stmt_text st) = true
     /\ stmt_params st = properties
     /\ (forall properties',
           keys properties' = keys properties ->
           create_node_query label properties' = stmt_text st))
  /\ (In key (keys filter) ->
      exists st,
        issued (snd (find_nodes backend config flabel (Some filter) limit w))
        = app (issued w) [st]
        /\ contains ("n." ++ key ++ " = $" ++ key) (stmt_text st) = true
        /\ (forall filter' limit',
              keys filter' = keys filter ->
              stmt_text (find_nodes_statement flabel (Some filter') limit')
              = stmt_text st)
        /\ (NoDup (keys filter) ->
            forall k v, In (k, v) filter ->
                        dict_get (stmt_params st) k = Some v)).
Proof.
  intros Hc. split; intros Hin.
  - eexists. split; [exact (create_node_trace label properties Hc)|].
    split; [now apply create_node_query_has_key|].
    split; [reflexivity|].
    intros properties' Hk. now apply create_node_query_keys.
  - eexists. split; [exact (find_nodes_trace flabel (Some filter) limit Hc)|].
    split; [now apply find_nodes_statement_has_key|].
    split.
    + intros filter' limit' Hk. now apply find_nodes_text_keys.
    + intros Hnd k v Hkv. now apply find_nodes_statement_value.
Qed.

Lemma keys_are_written_verbatim_witness :
  connects Demo.accepting Demo.config Demo.fresh
  /\ In "name" (keys [("name", VStr "Ada")])
  /\ exists st,
       issued (snd (find_nodes Demo.accepting Demo.config None
                      (Some [("name", VStr "Ada")]) None Demo.fresh))
       = [st]
       /\ contains "n.name = $name" (stmt_text st) = true
       /\ (forall filter' limit',
             keys filter' = ["name"] ->
             stmt_text (find_nodes_statement None (Some filter') limit')
             = stmt_text st)
       /\ (NoDup ["name"] ->
           forall k v, In (k, v) [("name", VStr "Ada")] ->
                       dict_get (stmt_params st) k = Some v).
Proof.
  split; [exact demo_connects|]. split; [now left|].
  apply (proj2 (keys_are_written_verbatim "Person" [("name", VStr "Ada")]
                  None [("name", VStr "Ada")] None "name" demo_connects)).
  now left.
Defined.

(** C3 as stated fails: a key that is no identifier is neither rejected
    nor escaped; it becomes part of the statement, here closing the
    property block early and starting a comment. *)
Lemma key_validation_counterexample :
  identifier_safe "x: 1}) RETURN n //" = false
  /\ create_node Demo.accepting Demo.config "Person"
       [("x: 1}) RETURN n //", VInt 2)] Demo.fresh
     = (Ok [("success", VBool true);
            ("node", VDict [("x: 1}) RETURN n //", VInt 2)]);
            ("labels", VList []);
            ("id", VInt 0)],
        mkWorld
          (Some (mkDriver 0 (Some "bolt://localhost:7687")
                   (Some "neo4j", Some "secret")))
          1%nat 1%nat []
          [mkStatement
             "CREATE (n:Person {x: 1}) RETURN n //: $x: 1}) RETURN n //}) RETURN n"
             [("x: 1}) RETURN n //", VInt 2)]])
  /\ issued (snd (find_nodes Demo.accepting Demo.config None
                    (Some [("x: 1}) RETURN n //", VInt 2)]) None Demo.fresh))
     = [mkStatement
          "MATCH (n) WHERE n.x: 1}) RETURN n // = $x: 1}) RETURN n // RETURN n LIMIT $limit"
          [("limit", VInt 10); ("x: 1}) RETURN n //", VInt 2)]].
Proof. repeat split. Qed.

(** ** Lookup without filter, and the limit (C4) *)





(** ** Creation with no properties (C5) *)

(** C5, as the code has it.  For an identifier-safe label, [create_node]
    with an empty property map sends [CREATE (n:<label> {}) RETURN n]: the
    property block is there, with nothing between its braces, and the
    bound parameters are empty. *)
Theorem create_node_empty_block
    (Store : Type) (backend : Backend Store) (config : Config)
    (w : World Store) (label : string) :
  identifier_safe label = true ->
  connects backend config w ->
  create_node_query label [] = "CREATE (n:" ++ label ++ " {}) RETURN n"
  /\ issued (snd (create_node backend config label [] w))
     = app (issued w)
         [mkStatement ("CREATE (n:" ++ label ++ " {}) RETURN n") []].
Proof.
  intros _ Hc. split; [reflexivity|].
  exact (create_node_trace label [] Hc).
Qed.

Lemma create_node_empty_block_witness :
  identifier_safe "Person" = true
  /\ connects Demo.accepting Demo.config Demo.fresh
  /\ issued (snd (create_node Demo.accepting Demo.config "Person" [] Demo.fresh))
     = [mkStatement "CREATE (n:Person {}) RETURN n" []].
Proof.
  split; [reflexivity|]. split; [exact demo_connects|].
  exact (proj2 (create_node_empty_block "Person" eq_refl demo_connects)).
Defined.

(** C5 as stated fails: the braces of the property block are in the text
    of the statement also when the property map is empty. *)
Lemma empty_block_counterexample :
  identifier_safe "Person" = true
  /\ issued (snd (create_node Demo.accepting Demo.config "Person" [] Demo.fresh))
     = [mkStatement "CREATE (n:Person {}) RETURN n" []]
  /\ contains "{" "CREATE (n:Person {}) RETURN n" = true
  /\ contains "}" "CREATE (n:Person {}) RETURN n" = true.
Proof. repeat split. Qed.

(** ** Result conversion (C6) *)

Section Conversion.

Lemma convert_value_plain (v : value) :
  plain v = true -> convert_value v = Ok v.
Proof. destruct v; simpl; intros H; (reflexivity || discriminate). Qed.

Lemma convert_value_node (id : Z) (labels : list string) (props : Dict) :
  convert_value (VNode id labels props) = Ok (VDict props).
Proof. reflexivity. Qed.

Lemma convert_value_relationship (id : Z) (rel_type : string) (props : Dict) :
  convert_value (VRel id rel_type props) = Ok (VDict props).
Proof. reflexivity. Qed.

Lemma record_getitem_key (record : Record_) (key : string) :
  In key (keys record) -> exists v, record_getitem record key = Ok v.
Proof.
  unfold record_getitem.
  induction record as [|[k v] record IH]; simpl; [tauto|].
  destruct (String.eqb_spec k key) as [->|ne]; [eauto|].
  intros [E|Hin]; [contradiction|]. exact (IH Hin).
Qed.

Lemma convert_keys_total (f : value -> Result value) (record : Record_)
    (ks : list string) (acc : Dict) :
  (forall v, exists v', f v = Ok v') ->
  incl ks (keys record) ->
  exists d, convert_keys f record ks acc = Ok d.
Proof.
  intros Hf. revert acc. induction ks as [|k ks IH]; intros acc Hincl; simpl.
  - eauto.
  - destruct (@record_getitem_key record k) as [v ->]; [apply Hincl; now left|].
    simpl. destruct (Hf v) as [v' ->]. simpl.
    apply IH. intros x Hx. apply Hincl. now right.
Qed.

End Conversion.

(** C6, the code at the failing input.  A record whose column holds a
    list of nodes, as [RETURN collect(n) AS ns] returns it, comes out of the
    conversion loop as it went in: a list has no [__dict__], so the node
    inside it is not unwrapped, and the records in the answer of
    [run_cypher_query] still hold the store's node object. *)
Theorem nested_node_passes_through :
  let node := VNode 7 ["Person"] [("name", VStr "Ada")] in
  hasattr_dict (VList [node]) = false
  /\ convert_record [("ns", VList [node])] = Ok [("ns", VList [node])]
  /\ plain_dict [("ns", VList [node])] = false
  /\ fst (run_cypher_query Demo.collecting Demo.config
            "MATCH (n) RETURN collect(n) AS ns" None Demo.fresh)
     = Ok [("success", VBool true);
           ("records", VList [VDict [("ns", VList [node])]]);
           ("count", VInt 1);
           ("query", VStr "MATCH (n) RETURN collect(n) AS ns")]
  /\ convert_record [("n", node)] = Ok [("n", VDict [("name", VStr "Ada")])].
Proof. cbv zeta. repeat split. Qed.

(** ** Every tool answers with an envelope (C7) *)

Section Envelopes.

Variable Store : Type.
Variable backend : Backend Store.
Variable config : Config.

Ltac unbind H :=
  repeat (apply bind_ok_inv in H; destruct H as (? & ? & _ & H);
          cbv beta zeta in H);
  unfold ret in H; injection H as H _; subst.

Lemma run_cypher_query_try_flag query parameters (w w' : World Store) a :
  run_cypher_query_try backend config query parameters w = (Ok a, w') ->
  dict_get a "success" = Some (VBool true).
Proof. unfold run_cypher_query_try. intros H. unbind H. reflexivity. Qed.

Lemma get_database_info_try_flag (w w' : World Store) a :
  get_database_info_try backend config w = (Ok a, w') ->
  dict_get a "success" = Some (VBool true).
Proof. unfold get_database_info_try. intros H. unbind H. reflexivity. Qed.

Lemma create_node_try_flag label properties (w w' : World Store) a :
  create_node_try backend config label properties w = (Ok a, w') ->
  dict_get a "success" = Some (VBool true).
Proof. unfold create_node_try. intros H. unbind H. reflexivity. Qed.

Lemma find_nodes_try_flag label properties limit (w w' : World Store) a :
  find_nodes_try backend config label properties limit w = (Ok a, w') ->
  dict_get a "success" = Some (VBool true).
Proof. unfold find_nodes_try. intros H. unbind H. reflexivity. Qed.

Lemma handled (body : M Store Dict) (failure : Exn -> Dict) (w : World Store) :
  (forall a w', body w = (Ok a, w') -> dict_get a "success" = Some (VBool true)) ->
  (forall e, dict_get (failure e) "success" = Some (VBool false)
             /\ dict_get (failure e) "error" = Some (VStr (str e))) ->
  answers (try_except body (fun e => ret (failure e))) body failure w.
Proof.
  intros Hok Hfail. unfold answers, try_except, ret.
  destruct (body w) as [[a|e] w'] eqn:Hb; simpl.
  - exists a, w'. repeat split. exact (Hok a w' eq_refl).
  - exists (failure e), w'. destruct (Hfail e). repeat split; assumption.
Qed.

(** C7.  Each of the four tools returns normally in every world,
    whatever the driver library and the store do.  When its [try] block
    raises [e], the answer is the failure envelope: [success] false,
    [error] the text [str(e)], and the request echoed ([query] for
    [run_cypher_query]; [label] and [properties] for [create_node] and
    [find_nodes]; [get_database_info] takes no argument).  When the block
    returns, the answer is what it returned, with [success] true.  So the
    flag alone tells the two apart. *)
Theorem every_tool_answers_with_an_envelope
    (w : World Store) (query : string) (parameters : option Dict)
    (label : string) (properties : Dict)
    (flabel : option string) (filter : option Dict) (limit : option Z) :
  answers (run_cypher_query backend config query parameters)
    (run_cypher_query_try backend config query
       (match parameters with Some p => p | None => [] end))
    (run_cypher_query_except query) w
  /\ answers (get_database_info backend config)
       (get_database_info_try backend config)
       get_database_info_except w
  /\ answers (create_node backend config label properties)
       (create_node_try backend config label properties)
       (create_node_except label properties) w
  /\ answers (find_nodes backend config flabel filter limit)
       (find_nodes_try backend config flabel filter
          (match limit with Some l => l | None => default_limit end))
       (find_nodes_except flabel filter) w
  /\ (forall e,
        dict_get (run_cypher_query_except query e) "query" = Some (VStr query)
        /\ dict_get (create_node_except label properties e) "label"
           = Some (VStr label)
        /\ dict_get (create_node_except label properties e) "properties"
           = Some (VDict properties)
        /\ dict_get (find_nodes_except flabel filter e) "label"
           = Some (opt_str flabel)
        /\ dict_get (find_nodes_except flabel filter e) "properties"
           = Some (opt_dict filter)).
Proof.
  split; [|split; [|split; [|split]]].
  - apply handled; [|now split].
    intros a w'. apply run_cypher_query_try_flag.
  - apply handled; [|now split].
    intros a w'. apply get_database_info_try_flag.
  - apply handled; [|now split].
    intros a w'. apply create_node_try_flag.
  - apply handled; [|now split].
    intros a w'. apply find_nodes_try_flag.
  - intros e. repeat split.
Qed.

End Envelopes.

(** C7 on a store that cannot be reached: the failure envelope of
    [create_node], and the world left as it was. *)
Example create_node_unreachable :
  create_node Demo.unreachable Demo.config "Person" [("name", VStr "Ada")]
    Demo.fresh
  = (Ok [("success", VBool false);
         ("error", VStr "Unable to connect");
         ("label", VStr "Person");
         ("properties", VDict [("name", VStr "Ada")])],
     Demo.fresh).
Proof. reflexivity. Qed.


(** ** The connection singleton (C9) *)

Section Singleton.

Variable Store : Type.
Variable backend : Backend Store.
Variable config : Config.

Lemma keeps_ret {A} (a : A) : keeps_handle (ret (Store := Store) a).
Proof. now intros w. Qed.

Lemma keeps_lift {A} (r : Result A) : keeps_handle (lift (Store := Store) r).
Proof. now intros w. Qed.

Lemma keeps_session (d : Driver) : keeps_handle (Driver_session backend d).
Proof.
  intros w. unfold Driver_session.
  now destruct (open_session backend d (store w)).
Qed.

Lemma keeps_run (query : string) (parameters : Dict) :
  keeps_handle (Session_run backend query parameters).
Proof.
  intros w. unfold Session_run.
  now destruct (execute backend _ (store w)).
Qed.

Lemma keeps_bind {A B} (m : M Store A) (f : A -> M Store B) :
  keeps_handle m -> (forall a, keeps_handle (f a)) -> keeps_handle (bind m f).
Proof.
  intros Hm Hf w. unfold bind. specialize (Hm w).
  destruct (m w) as [[a|e] w1]; simpl in *; [|exact Hm].
  destruct (Hf a w1) as [H1 H2]. destruct Hm as [H3 H4]. split; congruence.
Qed.

Create HintDb keeps.

#[local] Hint Resolve keeps_ret keeps_lift keeps_session keeps_run : keeps.

Ltac keeps_chain :=
  repeat (apply keeps_bind; [auto with keeps | intros ?]); auto with keeps.

(** Once the global is set, an acquire hands it back and changes nothing. *)
Lemma acquire_again (w : World Store) (d : Driver) :
  driver w = Some d -> get_neo4j_driver backend config w = (Ok d, w).
Proof. apply get_neo4j_driver_cached. Qed.

(** With the global set, a tool call leaves the handle in place and makes
    no other. *)
Lemma tools_keep_handle (w : World Store) (d : Driver)
    (query : string) (parameters : option Dict) (label : string)
    (properties : Dict) (flabel : option string) (filter : option Dict)
    (limit : option Z) :
  driver w = Some d ->
  let same (w' : World Store) := driver w' = Some d /\ created w' = created w in
  same (snd (run_cypher_query backend config query parameters w))
  /\ same (snd (get_database_info backend config w))
  /\ same (snd (create_node backend config label properties w))
  /\ same (snd (find_nodes backend config flabel filter limit w)).
Proof.
  intros Hd. cbv zeta.
  assert (step : forall (k : Driver -> M Store Dict) (h : Exn -> Dict),
             (forall d0, keeps_handle (k d0)) ->
             let w' := snd (try_except (bind (get_neo4j_driver backend config) k)
                              (fun e => ret (h e)) w) in
             driver w' = Some d /\ created w' = created w).
  { intros k h Hk. cbv zeta. unfold try_except, bind.
    rewrite (acquire_again _ Hd). destruct (Hk d w) as [H1 H2].
    destruct (k d w) as [[a|e] w1]; simpl in *; split; congruence. }
  repeat split.
  1,2: apply (step (fun d0 => bind (Driver_session backend d0) _)
                (run_cypher_query_except query)); intros d0; keeps_chain.
  1,2: apply (step (fun d0 => bind (Driver_session backend d0) _)
                get_database_info_except); intros d0; keeps_chain.
  1,2: apply (step (fun d0 => bind (Driver_session backend d0) _)
                (create_node_except label properties)); intros d0; keeps_chain.
  1,2: apply (step (fun d0 => bind (Driver_session backend d0) _)
                (find_nodes_except flabel filter)); intros d0; keeps_chain.
Qed.

End Singleton.

(** C9.  Starting with no handle, and with a driver library that makes
    and closes handles without raising: the first [get_neo4j_driver] makes
    a handle from the configured URI and credentials and stores it in the
    global; an acquire in any world where the global holds that handle
    returns that handle and changes nothing, so no second handle is made;
    [close_driver] closes that handle and resets the global to [None]; and
    the next acquire makes a new handle, distinct from the closed one. *)
Theorem connection_lifecycle
    (Store : Type) (backend : Backend Store) (config : Config)
    (w : World Store) :
  driver w = None ->
  connect backend (NEO4J_URI config)
    (NEO4J_USERNAME config, NEO4J_PASSWORD config) (store w) = None ->
  (forall d, shutdown backend d (store w) = None) ->
  exists d w1,
    get_neo4j_driver backend config w = (Ok d, w1)
    /\ drv_uri d = NEO4J_URI config
    /\ drv_auth d = (NEO4J_USERNAME config, NEO4J_PASSWORD config)
    /\ driver w1 = Some d
    /\ created w1 = S (created w)
    /\ get_neo4j_driver backend config w1 = (Ok d, w1)
    /\ (forall w', driver w' = Some d ->
          get_neo4j_driver backend config w' = (Ok d, w'))
    /\ exists w2,
         close_driver backend w1 = (Ok tt, w2)
         /\ driver w2 = None
         /\ closed w2 = app (closed w1) [d]
         /\ created w2 = created w1
         /\ exists d' w3,
              get_neo4j_driver backend config w2 = (Ok d', w3)
              /\ handle d' <> handle d
              /\ driver w3 = Some d'
              /\ created w3 = S (created w2).
Proof.
  intros Hnone Hconn Hshut.
  pose proof (@get_neo4j_driver_creates _ backend config w Hnone Hconn) as Hget.
  cbv zeta in Hget.
  set (d := mkDriver (created w) (NEO4J_URI config)
              (NEO4J_USERNAME config, NEO4J_PASSWORD config)) in *.
  set (w1 := mkWorld (Some d) (store w) (S (created w)) (closed w) (issued w)) in *.
  exists d, w1. split; [exact Hget|]. do 4 (split; [reflexivity|]).
  split; [now apply get_neo4j_driver_cached|].
  split; [intros w' Hw'; now apply get_neo4j_driver_cached|].
  set (w2 := mkWorld None (store w) (S (created w)) (app (closed w) [d]) (issued w)).
  exists w2. split.
  { unfold close_driver, bind, get_driver_global, Driver_close, set_driver.
    simpl. now rewrite Hshut. }
  repeat (split; [reflexivity|]).
  pose proof (@get_neo4j_driver_creates _ backend config w2 eq_refl Hconn) as Hget2.
  cbv zeta in Hget2.
  eexists _, _. split; [exact Hget2|].
  repeat split. simpl. lia.
Qed.

Lemma connection_lifecycle_witness :
  exists d w1,
    get_neo4j_driver Demo.accepting Demo.config Demo.fresh = (Ok d, w1)
    /\ handle d = 0%nat
    /\ get_neo4j_driver Demo.accepting Demo.config w1 = (Ok d, w1)
    /\ exists w2,
         close_driver Demo.accepting w1 = (Ok tt, w2)
         /\ driver w2 = None
         /\ closed w2 = [d].
Proof.
  destruct (@connection_lifecycle nat Demo.accepting Demo.config Demo.fresh
              eq_refl eq_refl (fun _ => eq_refl))
    as (d & w1 & Hget & _ & _ & _ & _ & Hagain & _ & w2 & Hclose & Hglobal & Hclosed & _).
  exists d, w1. split; [exact Hget|].
  split; [now injection Hget as <- _|].
  split; [exact Hagain|].
  exists w2. split; [exact Hclose|]. split; [exact Hglobal|].
  rewrite Hclosed. now injection Hget as _ <-.
Defined.

(** ** The client shim (C10) *)

Lemma try_completes (t : Transport) (self : Neo4jMCPTool) (tool_name : string)
    (arguments : Dict) (v : value) :
  execute_mcp_call_try t self tool_name arguments = Ok v
  <-> completes t self tool_name arguments v.
Proof.
  unfold execute_mcp_call_try, completes, with_block, guard, rbind.
  destruct (client_enter t (server_url self)), (session_enter t), (initialize t),
    (call_tool t tool_name arguments) as [content|ex];
    try (split; [discriminate | intros (? & ? & ? & ? & ?); try discriminate;
                                repeat match goal with
                                       | H : exists _, _ |- _ => destruct H
                                       | H : _ /\ _ |- _ => destruct H
                                       end; discriminate]).
  destruct (first_text content) as [text|ex] eqn:Hf.
  2:{ split; [discriminate|].
      intros (_ & _ & _ & (c & x & Hc & Hx & _) & _).
      injection Hc as <-. congruence. }
  destruct (json_loads t text) as [reply|ex] eqn:Hj.
  2:{ split; [discriminate|].
      intros (_ & _ & _ & (c & x & Hc & Hx & Hl) & _).
      injection Hc as <-. rewrite Hf in Hx. injection Hx as <-. congruence. }
  destruct (session_exit t), (client_exit t); simpl;
    try (split; [discriminate | intros (_ & _ & _ & _ & ? & ?); discriminate]).
  split.
  - intros [= <-]. repeat split. now exists content, text.
  - intros (_ & _ & _ & (c & x & Hc & Hx & Hl) & _).
    injection Hc as <-. rewrite Hf in Hx. injection Hx as <-. congruence.
Qed.

(** C10, as the code has it.  For every behaviour of the MCP client
    library, the network and the decoder, [_execute_mcp_call] returns
    normally.  It returns the decoded reply, as it is, when every step
    (opening the stream, the session, the handshake, the tool call, reading
    and decoding the reply, leaving the two blocks) went through; in every
    other case some step raised, the handler caught the exception [e], and
    the result is the mapping [{success: False, error: str(e)}].  So the
    caller receives an envelope-shaped mapping whenever the reply of the
    server decodes to one. *)
Theorem shim_never_raises (t : Transport) (self : Neo4jMCPTool)
    (tool_name : string) (arguments : Dict) :
  exists v,
    _execute_mcp_call t self tool_name arguments = Ok v
    /\ (completes t self tool_name arguments v
        \/ ((forall reply, ~ completes t self tool_name arguments reply)
            /\ exists e,
                 execute_mcp_call_try t self tool_name arguments = Raise e
                 /\ v = VDict [("success", VBool false); ("error", VStr (str e))]
                 /\ envelope_shaped v = true))
    /\ ((forall reply,
           completes t self tool_name arguments reply ->
           envelope_shaped reply = true) ->
        envelope_shaped v = true).
Proof.
  unfold _execute_mcp_call.
  destruct (execute_mcp_call_try t self tool_name arguments) as [reply|e] eqn:Htry.
  - exists reply. split; [reflexivity|]. split.
    + left. now apply try_completes.
    + intros Hshape. apply Hshape. now apply try_completes.
  - exists (execute_mcp_call_except e). split; [reflexivity|]. split.
    + right. split.
      * intros reply Hc. apply try_completes in Hc. congruence.
      * exists e. repeat split.
    + reflexivity.
Qed.

Lemma shim_never_raises_witness :
  exists v,
    _execute_mcp_call Demo.refused default_tool "find_nodes" [] = Ok v
    /\ envelope_shaped v = true.
Proof.
  destruct (shim_never_raises Demo.refused default_tool "find_nodes" [])
    as (v & Hv & _ & Hshape).
  exists v. split; [exact Hv|]. apply Hshape.
  intros reply Hc. apply try_completes in Hc. discriminate Hc.
Defined.

(** C10 as stated fails: a reply that decodes to a list goes back to the
    caller as that list, which is no mapping. *)
Lemma shim_reply_counterexample :
  _execute_mcp_call (Demo.answering "[]" (Ok (VList []))) default_tool
    "find_nodes" [("label", VNone); ("properties", VNone); ("limit", VInt 10)]
  = Ok (VList [])
  /\ envelope_shaped (VList []) = false.
Proof. split; reflexivity. Qed.

(** An unreachable server: the stream cannot be opened. *)
Example shim_server_down :
  _execute_mcp_call Demo.refused default_tool "find_nodes" [("limit", VInt 10)]
  = Ok (VDict [("success", VBool false);
               ("error", VStr "All connection attempts failed")]).
Proof. reflexivity. Qed.

(** A reply that is not JSON: decoding raises, the handler answers. *)
Example shim_bad_reply :
  _execute_mcp_call
    (Demo.answering "Error executing tool find_nodes"
       (Raise (mkExn "JSONDecodeError" "Expecting value: line 1 column 1 (char 0)")))
    default_tool "find_nodes" []
  = Ok (VDict [("success", VBool false);
               ("error", VStr "Expecting value: line 1 column 1 (char 0)")]).
Proof. reflexivity. Qed.

(** ** What a creation followed by a lookup sends *)

(** The two statements of the round trip of section 8 of the
    specification. *)
Example round_trip_statements :
  create_node_query "Person" [("name", VStr "Ada"); ("age", VInt 36)]
  = "CREATE (n:Person {name: $name, age: $age}) RETURN n"
  /\ find_nodes_statement (Some "Person") (Some [("name", VStr "Ada")]) default_limit
     = mkStatement "MATCH (n:Person) WHERE n.name = $name RETURN n LIMIT $limit"
         [("limit", VInt 10); ("name", VStr "Ada")].
Proof. split; reflexivity. Qed.

(** * More of the conversion loop *)

Section Columns.

Lemma dict_get_app_skip (pre l : Dict) (k : string) :
  ~ In k (keys pre) -> dict_get (app pre l) k = dict_get l k.
Proof.
  induction pre as [|[k0 v0] pre IH]; simpl; [reflexivity|].
  intros Hn. destruct (String.eqb_spec k0 k) as [->|_]; [tauto|].
  apply IH. tauto.
Qed.

Lemma dict_get_head (l : Dict) (k : string) (v : value) :
  dict_get ((k, v) :: l) k = Some v.
Proof. simpl. now rewrite String.eqb_refl. Qed.

Lemma dict_set_new (d : Dict) (k : string) (v : value) :
  ~ In k (keys d) -> dict_set d k v = app d [(k, v)].
Proof.
  induction d as [|[k0 v0] d IH]; simpl; [reflexivity|].
  intros Hn. destruct (String.eqb_spec k0 k) as [->|_]; [tauto|].
  f_equal. apply IH. tauto.
Qed.

Lemma convert_value_unwrapped (v : value) :
  is_object v = false -> convert_value v = Ok (unwrapped v).
Proof. destruct v; (reflexivity || discriminate). Qed.

(** No column of the record holds an object of the driver other than a
    node or a relationship. *)
Lemma shallow_no_object (v : value) : shallow v = true -> is_object v = false.
Proof. destruct v; simpl; (reflexivity || discriminate). Qed.

Lemma plain_props (props : Dict) :
  forallb (fun kv => let '(_, x) := kv in plain x) props = plain_dict props.
Proof.
  unfold plain_dict. induction props as [|[k x] props IH]; simpl; congruence.
Qed.

Lemma plain_unwrapped (v : value) : shallow v = true -> plain (unwrapped v) = true.
Proof.
  destruct v; simpl; auto; intros H;
    change (forallb (fun kv => let '(_, x) := kv in plain x) props = true);
    now rewrite plain_props.
Qed.

Lemma keys_columns (r : Record_) : keys (map column r) = keys r.
Proof. unfold keys. rewrite map_map. reflexivity. Qed.

Lemma convert_keys_columns (pre suf : Record_) :
  NoDup (keys (app pre suf)) ->
  forallb (fun kv => negb (is_object (snd kv))) suf = true ->
  convert_keys convert_value (app pre suf) (keys suf) (map column pre)
  = Ok (map column (app pre suf)).
Proof.
  revert pre. induction suf as [|[k v] suf IH]; intros pre Hnd Hno.
  - simpl. now rewrite app_nil_r.
  - assert (Hk : ~ In k (keys pre)).
    { unfold keys in *. rewrite map_app in Hnd. simpl in Hnd.
      apply NoDup_remove_2 in Hnd. intros Hin. apply Hnd.
      apply in_or_app. now left. }
    simpl in Hno. apply andb_prop in Hno. destruct Hno as [Hv Hno].
    apply negb_true_iff in Hv.
    cbn [keys map fst convert_keys]. unfold record_getitem.
    rewrite (dict_get_app_skip pre ((k, v) :: suf) k Hk), dict_get_head.
    cbn [rbind].
    rewrite (convert_value_unwrapped _ Hv). cbn [rbind].
    rewrite dict_set_new by now rewrite keys_columns.
    change (app (map column pre) [(k, unwrapped v)])
      with (app (map column pre) (map column [(k, v)])).
    rewrite <- map_app.
    replace (app pre ((k, v) :: suf)) with (app (app pre [(k, v)]) suf)
      by now rewrite <- app_assoc.
    apply IH; [now rewrite <- app_assoc | exact Hno].
Qed.

(** The loop stops at the first column that holds an object [dict]
    cannot read. *)
Lemma convert_keys_stops (pre : Record_) (k : string) (v : value)
    (suf : Record_) (e : Exn) :
  NoDup (keys (app pre ((k, v) :: suf))) ->
  forallb (fun kv => negb (is_object (snd kv))) pre = true ->
  hasattr_dict v = true ->
  py_dict v = Raise e ->
  convert_record (app pre ((k, v) :: suf)) = Raise e.
Proof.
  intros Hnd Hpre Hattr Hdict. unfold convert_record.
  assert (gen : forall done todo,
             NoDup (keys (app done (app todo ((k, v) :: suf)))) ->
             forallb (fun kv => negb (is_object (snd kv))) todo = true ->
             convert_keys convert_value (app done (app todo ((k, v) :: suf)))
               (keys (app todo ((k, v) :: suf))) (map column done)
             = Raise e).
  { intros done todo. revert done.
    induction todo as [|[k0 v0] todo IH]; intros done Hnd0 Hno.
    - assert (Hk : ~ In k (keys done)).
      { unfold keys in *. simpl in Hnd0. rewrite map_app in Hnd0.
        simpl in Hnd0. apply NoDup_remove_2 in Hnd0. intros Hin.
        apply Hnd0. apply in_or_app. now left. }
      cbn [app keys map fst convert_keys]. unfold record_getitem.
      rewrite (dict_get_app_skip done ((k, v) :: suf) k Hk), dict_get_head.
      cbn [rbind]. unfold convert_value. rewrite Hattr, Hdict. reflexivity.
    - assert (Hk : ~ In k0 (keys done)).
      { unfold keys in *. simpl in Hnd0. rewrite map_app in Hnd0.
        simpl in Hnd0. apply NoDup_remove_2 in Hnd0. intros Hin.
        apply Hnd0. apply in_or_app. now left. }
      simpl in Hno. apply andb_prop in Hno. destruct Hno as [Hv Hno].
      apply negb_true_iff in Hv.
      cbn [app keys map fst convert_keys]. unfold record_getitem.
      rewrite (dict_get_app_skip done ((k0, v0) :: app todo ((k, v) :: suf))
                 k0 Hk), dict_get_head.
      cbn [rbind]. rewrite (convert_value_unwrapped _ Hv). cbn [rbind].
      rewrite dict_set_new by now rewrite keys_columns.
      change (app (map column done) [(k0, unwrapped v0)])
        with (app (map column done) (map column [(k0, v0)])).
      rewrite <- map_app.
      replace (app done ((k0, v0) :: app todo ((k, v) :: suf)))
        with (app (app done [(k0, v0)]) (app todo ((k, v) :: suf)))
        by now rewrite <- app_assoc.
      apply IH; [now rewrite <- app_assoc | exact Hno]. }
  exact (gen [] pre Hnd Hpre).
Qed.

(** For a record whose column names are distinct.  When no column holds
    an object of the driver other than a node or a relationship, the
    conversion loop of [run_cypher_query] keeps the columns and their
    order; a column holding a node or a relationship comes out as the dict
    of its properties (its id, labels and type are dropped) and every other
    column comes out as it went in.  When a column holds an object that
    cannot be iterated (a date, a time), and no column before it holds an
    object, the loop raises the [TypeError] of [dict] on that column. *)
Theorem convert_record_columns (record : Record_) :
  NoDup (keys record) ->
  (forallb (fun kv => negb (is_object (snd kv))) record = true ->
   convert_record record
   = Ok (map (fun kv => (fst kv, unwrapped (snd kv))) record))
  /\ (forall pre k cls suf,
        record = app pre ((k, VObject cls None) :: suf) ->
        forallb (fun kv => negb (is_object (snd kv))) pre = true ->
        convert_record record
        = Raise (TypeError ("'" ++ cls ++ "' object is not iterable"))).
Proof.
  intros Hnd. split.
  - intros Hno. exact (convert_keys_columns [] record Hnd Hno).
  - intros pre k cls suf -> Hpre.
    now apply convert_keys_stops.
Qed.

Lemma convert_record_columns_witness :
  NoDup (keys [("n", VNode 7 ["Person"] [("name", VStr "Ada")]); ("c", VInt 2)])
  /\ convert_record [("n", VNode 7 ["Person"] [("name", VStr "Ada")]); ("c", VInt 2)]
     = Ok [("n", VDict [("name", VStr "Ada")]); ("c", VInt 2)].
Proof.
  assert (H : NoDup (keys [("n", VNode 7 ["Person"] [("name", VStr "Ada")]);
                           ("c", VInt 2)])).
  { repeat constructor; simpl; intuition discriminate. }
  split; [exact H|]. exact (proj1 (convert_record_columns _ H) eq_refl).
Defined.

Lemma forallb_shallow_no_object (record : Record_) :
  forallb (fun kv => shallow (snd kv)) record = true ->
  forallb (fun kv => negb (is_object (snd kv))) record = true.
Proof.
  induction record as [|[k v] record IH]; simpl; [reflexivity|].
  intros H. apply andb_prop in H. destruct H as [Hv H].
  rewrite (shallow_no_object _ Hv). simpl. now apply IH.
Qed.

(** When the column names of a record are distinct and every column is
    either a plain value or a node or relationship whose properties are
    plain, the converted record holds no graph element at any depth. *)
Theorem convert_record_plain (record : Record_) :
  NoDup (keys record) ->
  forallb (fun kv => shallow (snd kv)) record = true ->
  exists d, convert_record record = Ok d /\ plain_dict d = true.
Proof.
  intros Hnd Hs. eexists. split.
  { exact (convert_keys_columns [] record Hnd (forallb_shallow_no_object _ Hs)). }
  unfold plain_dict. rewrite forallb_forall in *.
  intros kv Hin. apply in_map_iff in Hin. destruct Hin as (kv0 & <- & Hin0).
  simpl. apply plain_unwrapped. exact (Hs kv0 Hin0).
Qed.

Lemma convert_record_plain_witness :
  NoDup (keys [("n", VNode 7 ["Person"] [("name", VStr "Ada")]); ("c", VInt 2)])
  /\ exists d,
       convert_record [("n", VNode 7 ["Person"] [("name", VStr "Ada")]);
                       ("c", VInt 2)] = Ok d
       /\ plain_dict d = true.
Proof.
  assert (H : NoDup (keys [("n", VNode 7 ["Person"] [("name", VStr "Ada")]);
                           ("c", VInt 2)])).
  { repeat constructor; simpl; intuition discriminate. }
  split; [exact H|]. exact (convert_record_plain _ H eq_refl).
Defined.

End Columns.

(** * More of the server: what the tools do around the store *)

Section Guarded.

Variable Store : Type.
Variable backend : Backend Store.
Variable config : Config.

Abbreviation World := (World Store).
Abbreviation M := (M Store).

Lemma get_neo4j_driver_fails (w : World) (e : Exn) :
  driver w = None ->
  connect backend (NEO4J_URI config)
    (NEO4J_USERNAME config, NEO4J_PASSWORD config) (store w) = Some e ->
  get_neo4j_driver backend config w = (Raise e, w).
Proof.
  intros Hn Hc. unfold get_neo4j_driver, bind, get_driver_global,
    GraphDatabase_driver.
  now rewrite Hn, Hc.
Qed.

Lemma run_cypher_query_guarded (query : string) (parameters : option Dict) :
  run_cypher_query backend config query parameters
  = guarded backend config
      (fun _ =>
         let parameters := match parameters with Some p => p | None => [] end in
         bind (Session_run backend query parameters) (fun result =>
         bind (lift (map_result convert_record result)) (fun records =>
         ret [("success", VBool true);
              ("records", VList (map VDict records));
              ("count", VInt (Z.of_nat (length records)));
              ("query", VStr query)])))
      (run_cypher_query_except query).
Proof. reflexivity. Qed.

Lemma create_node_guarded (label : string) (properties : Dict) :
  create_node backend config label properties
  = guarded backend config
      (fun _ =>
         bind (Session_run backend (create_node_query label properties) properties)
           (fun result =>
         bind (lift (single_getitem result "n")) (fun created_node =>
         bind (lift (py_dict created_node)) (fun node =>
         bind (lift (attr_labels created_node)) (fun labels =>
         bind (lift (attr_id created_node)) (fun id =>
         ret [("success", VBool true);
              ("node", VDict node);
              ("labels", VList (map VStr labels));
              ("id", VInt id)]))))))
      (create_node_except label properties).
Proof. reflexivity. Qed.

Lemma find_nodes_guarded (label : option string) (properties : option Dict)
    (limit : option Z) :
  find_nodes backend config label properties limit
  = guarded backend config
      (fun _ =>
         let st := find_nodes_statement label properties
                     (match limit with Some l => l | None => default_limit end) in
         bind (Session_run backend (stmt_text st) (stmt_params st)) (fun result =>
         bind (lift (map_result node_entry result)) (fun nodes =>
         ret [("success", VBool true);
              ("nodes", VList nodes);
              ("count", VInt (Z.of_nat (length nodes)));
              ("query", VStr (stmt_text st))])))
      (find_nodes_except label properties).
Proof. reflexivity. Qed.

Lemma get_database_info_guarded :
  get_database_info backend config
  = guarded backend config (fun _ => info_session backend)
      get_database_info_except.
Proof. reflexivity. Qed.

Lemma guarded_offline (k : Driver -> M Dict) (h : Exn -> Dict) (w : World) :
  ~ connects backend config w ->
  exists e,
    fst (guarded backend config k h w) = Ok (h e)
    /\ issued (snd (guarded backend config k h w)) = issued w
    /\ store (snd (guarded backend config k h w)) = store w.
Proof.
  intros Hn. unfold guarded, try_except, ret, bind, Driver_session.
  destruct (get_neo4j_driver backend config w) as [[d|e] w'] eqn:Hd;
    pose proof Hd as Hf; apply get_neo4j_driver_frame in Hf;
    destruct Hf as (Hs & Hi & _).
  - destruct (open_session backend d (store w')) as [e|] eqn:Ho.
    + exists e. simpl. repeat split; assumption.
    + elim Hn. now exists d, w'.
  - exists e. simpl. repeat split; assumption.
Qed.

Lemma guarded_no_handle (k : Driver -> M Dict) (h : Exn -> Dict) (w : World)
    (e : Exn) :
  driver w = None ->
  connect backend (NEO4J_URI config)
    (NEO4J_USERNAME config, NEO4J_PASSWORD config) (store w) = Some e ->
  guarded backend config k h w = (Ok (h e), w).
Proof.
  intros Hn Hc. unfold guarded, try_except, ret, bind.
  pose proof Hc as Hf. apply get_neo4j_driver_fails in Hf; [|exact Hn].
  now rewrite Hf.
Qed.

Lemma quiet_ret {A} (a : A) : quiet (ret (Store := Store) a).
Proof. now intros w. Qed.

Lemma quiet_lift {A} (r : Result A) : quiet (lift (Store := Store) r).
Proof. now intros w. Qed.

Lemma quiet_run (query : string) (parameters : Dict) :
  quiet (Session_run backend query parameters).
Proof.
  intros w. unfold Session_run. now destruct (execute backend _ (store w)).
Qed.

Lemma quiet_bind {A B} (m : M A) (f : A -> M B) :
  quiet m -> (forall a, quiet (f a)) -> quiet (bind m f).
Proof.
  intros Hm Hf w. unfold bind. specialize (Hm w).
  destruct (m w) as [[a|e] w1]; simpl in *; [|exact Hm].
  destruct (Hf a w1) as (H1 & H2 & H3). destruct Hm as (H4 & H5 & H6).
  repeat split; congruence.
Qed.

Create HintDb quiet.

#[local] Hint Resolve quiet_ret quiet_lift quiet_run : quiet.

Ltac quiet_chain :=
  repeat (apply quiet_bind; [auto with quiet | intros ?]); auto with quiet.

Lemma guarded_handle_safe (k : Driver -> M Dict) (h : Exn -> Dict) (w : World) :
  (forall d, quiet (k d)) ->
  handle_safe w (snd (guarded backend config k h w)).
Proof.
  intros Hk.
  unfold handle_safe, guarded, try_except, get_neo4j_driver, bind,
    get_driver_global, GraphDatabase_driver, Driver_session, set_driver, ret.
  destruct (driver w) as [d|] eqn:Hdrv.
  - destruct (open_session backend d (store w)).
    + simpl. rewrite Hdrv. repeat split; try lia; congruence.
    + destruct (Hk d w) as (H1 & H2 & H3).
      destruct (k d w) as [[a|e] w1]; simpl in *; rewrite H1, H2, H3, Hdrv;
        repeat split; try lia; congruence.
  - destruct (connect backend _ _ (store w)); simpl.
    + rewrite Hdrv. repeat split; try lia; congruence.
    + destruct (open_session backend _ (store w)); simpl.
      * repeat split; try lia; congruence.
      * match goal with
        | |- context [k ?d ?w0] =>
            destruct (Hk d w0) as (H1 & H2 & H3);
            destruct (k d w0) as [[a|e] w1]
        end; simpl in *; rewrite H2, H3; repeat split; try lia; congruence.
Qed.

(** When the connection is not usable (no handle can be made, or no
    session opens), none of the four tools sends a statement: each answers
    with its failure envelope for the exception the driver raised, and the
    store is as it was. *)
Theorem tools_send_nothing_offline
    (w : World) (query : string) (parameters : option Dict)
    (label : string) (properties : Dict)
    (flabel : option string) (filter : option Dict) (limit : option Z) :
  ~ connects backend config w ->
  (exists e,
     fst (run_cypher_query backend config query parameters w)
     = Ok (run_cypher_query_except query e)
     /\ issued (snd (run_cypher_query backend config query parameters w))
        = issued w
     /\ store (snd (run_cypher_query backend config query parameters w))
        = store w)
  /\ (exists e,
        fst (get_database_info backend config w)
        = Ok (get_database_info_except e)
        /\ issued (snd (get_database_info backend config w)) = issued w
        /\ store (snd (get_database_info backend config w)) = store w)
  /\ (exists e,
        fst (create_node backend config label properties w)
        = Ok (create_node_except label properties e)
        /\ issued (snd (create_node backend config label properties w))
           = issued w
        /\ store (snd (create_node backend config label properties w))
           = store w)
  /\ (exists e,
        fst (find_nodes backend config flabel filter limit w)
        = Ok (find_nodes_except flabel filter e)
        /\ issued (snd (find_nodes backend config flabel filter limit w))
           = issued w
        /\ store (snd (find_nodes backend config flabel filter limit w))
           = store w).
Proof.
  intros Hn.
  rewrite run_cypher_query_guarded, get_database_info_guarded,
    create_node_guarded, find_nodes_guarded.
  split; [|split; [|split]]; apply guarded_offline, Hn.
Qed.

(** When no handle is held and the driver library cannot make one, each of
    the four tools answers with its failure envelope for that exception
    and leaves the whole state as it was: the global stays [None], so the
    next call asks the library again. *)
Theorem failed_connection_changes_nothing
    (w : World) (e : Exn) (query : string) (parameters : option Dict)
    (label : string) (properties : Dict)
    (flabel : option string) (filter : option Dict) (limit : option Z) :
  driver w = None ->
  connect backend (NEO4J_URI config)
    (NEO4J_USERNAME config, NEO4J_PASSWORD config) (store w) = Some e ->
  run_cypher_query backend config query parameters w
  = (Ok (run_cypher_query_except query e), w)
  /\ get_database_info backend config w
     = (Ok (get_database_info_except e), w)
  /\ create_node backend config label properties w
     = (Ok (create_node_except label properties e), w)
  /\ find_nodes backend config flabel filter limit w
     = (Ok (find_nodes_except flabel filter e), w).
Proof.
  intros Hn Hc.
  rewrite run_cypher_query_guarded, get_database_info_guarded,
    create_node_guarded, find_nodes_guarded.
  repeat split; now apply guarded_no_handle.
Qed.

(** No tool call closes a handle, none makes more than one, and none
    replaces a handle that is already in the global: with a handle held,
    the same handle is held afterwards and no other was made. *)
Theorem tools_are_handle_safe
    (w : World) (query : string) (parameters : option Dict)
    (label : string) (properties : Dict)
    (flabel : option string) (filter : option Dict) (limit : option Z) :
  handle_safe w (snd (run_cypher_query backend config query parameters w))
  /\ handle_safe w (snd (get_database_info backend config w))
  /\ handle_safe w (snd (create_node backend config label properties w))
  /\ handle_safe w (snd (find_nodes backend config flabel filter limit w)).
Proof.
  rewrite run_cypher_query_guarded, get_database_info_guarded,
    create_node_guarded, find_nodes_guarded.
  split; [|split; [|split]]; apply guarded_handle_safe; intros d;
    unfold info_session; cbv zeta; quiet_chain.
Qed.

Lemma guarded_online (k : Driver -> M Dict) (h : Exn -> Dict) (w w' : World)
    (d : Driver) :
  get_neo4j_driver backend config w = (Ok d, w') ->
  open_session backend d (store w') = None ->
  guarded backend config k h w = try_except (k d) (fun e => ret (h e)) w'.
Proof.
  intros Hd Hs. unfold guarded, try_except, bind, Driver_session.
  now rewrite Hd, Hs.
Qed.

Lemma column_read (key : string) (answer : list Record_) :
  Forall (fun r => has_key r key = true) answer ->
  exists vs,
    map_result (fun record => record_getitem record key) answer = Ok vs
    /\ Forall2 (fun r v => dict_get r key = Some v) answer vs.
Proof.
  induction 1 as [|r answer Hr _ (vs & IH & IH2)]; simpl.
  - exists []. split; [reflexivity | constructor].
  - unfold record_getitem at 1. unfold has_key in Hr.
    destruct (dict_get r key) as [v|] eqn:Hv; [|discriminate].
    simpl. rewrite IH. simpl. exists (v :: vs). split; [reflexivity|].
    now constructor.
Qed.

Lemma count_read (answer : list Record_) :
  match answer with
  | r :: _ => has_key r "count" = true
  | [] => False
  end ->
  exists v, single_getitem answer "count" = Ok v.
Proof.
  destruct answer as [|r rest]; [contradiction|].
  unfold single_getitem, single, record_getitem, has_key. simpl.
  destruct (dict_get r "count") as [v|]; [eauto | discriminate].
Qed.

Ltac next_answer :=
  try match goal with
      | H : answered _ _ _ _ _ |- _ => simpl in H
      end;
  match goal with
  | H : match ?answers with [] => _ | _ :: _ => _ end |- _ =>
      destruct answers as [|? ?];
      [ first [contradiction | subst]
      | first [ contradiction
              | let s1 := fresh "s" in
                let Hx := fresh "Hx" in
                destruct H as (s1 & Hx & H) ] ]
  end.

Ltac read_column Hread i key :=
  let vs := fresh "vs" in
  let Hv := fresh "Hv" in
  match type of Hread with
  | forall i0 a, nth_error ?answers i0 = Some a -> _ =>
      match eval cbv in (nth_error answers i) with
      | Some ?a =>
          destruct (@column_read key a (Hread i a eq_refl)) as (vs & Hv & _);
          rewrite Hv; cbn [rbind]
      end
  end.

Ltac read_count Hread i :=
  let v := fresh "v" in
  let Hv := fresh "Hv" in
  match type of Hread with
  | forall i0 a, nth_error ?answers i0 = Some a -> _ =>
      match eval cbv in (nth_error answers i) with
      | Some ?a =>
          destruct (@count_read a (Hread i a eq_refl)) as (v & Hv);
          rewrite Hv; cbn [rbind]
      end
  end.

Ltac sent_so_far := repeat split; rewrite <- ?app_assoc; reflexivity.

(** With the connection usable, [get_database_info] sends its five fixed
    statements in order, without parameters, and stops at the first one the
    store raises on.  If the store answers the first [k] statements, with
    the columns the tool reads in them, and raises [e] on the next one,
    then exactly [k + 1] statements were sent, the call is the failure
    envelope for [e], and the store is left as that last statement left
    it.  If the store answers all five, with the columns the tool reads,
    all five were sent and the call reports success. *)
Theorem get_database_info_stops_at_first_raise (w : World) :
  connects backend config w ->
  (forall k answers sk s' st e,
     nth_error info_statements k = Some st ->
     answered backend (firstn k info_statements) (store w) answers sk ->
     (forall i a, nth_error answers i = Some a -> info_readable i a) ->
     execute backend st sk = (Raise e, s') ->
     fst (get_database_info backend config w)
     = Ok [("success", VBool false); ("error", VStr (str e))]
     /\ issued (snd (get_database_info backend config w))
        = app (issued w) (firstn (S k) info_statements)
     /\ store (snd (get_database_info backend config w)) = s')
  /\ (forall answers s5,
        answered backend info_statements (store w) answers s5 ->
        (forall i a, nth_error answers i = Some a -> info_readable i a) ->
        (exists env,
           fst (get_database_info backend config w) = Ok env
           /\ dict_get env "success" = Some (VBool true))
        /\ issued (snd (get_database_info backend config w))
           = app (issued w) info_statements
        /\ store (snd (get_database_info backend config w)) = s5).
Proof.
  intros (d & w' & Hd & Hs).
  pose proof Hd as Hfr. apply get_neo4j_driver_frame in Hfr.
  destruct Hfr as (Hst & Hi & _).
  rewrite get_database_info_guarded, (@guarded_online _ _ w w' d Hd Hs).
  unfold info_session, try_except, bind, Session_run, lift, ret.
  rewrite Hst, Hi. split.
  - intros k answers sk s' st e Hnth Hans Hread Hraise.
    destruct k as [|[|[|[|[|k]]]]]; simpl in Hnth;
      [ | | | | | destruct k; discriminate Hnth ];
      injection Hnth as <-; cbn [firstn info_statements] in Hans.
    + next_answer. rewrite Hraise. sent_so_far.
    + do 2 next_answer. rewrite Hx. cbn [store issued fst snd].
      rewrite Hraise. sent_so_far.
    + do 3 next_answer. rewrite Hx. cbn [store issued fst snd].
      rewrite Hx0. cbn [store issued fst snd].
      read_column Hread 1%nat "label".
      rewrite Hraise. sent_so_far.
    + do 4 next_answer. rewrite Hx. cbn [store issued fst snd].
      rewrite Hx0. cbn [store issued fst snd].
      read_column Hread 1%nat "label".
      rewrite Hx1. cbn [store issued fst snd].
      read_column Hread 2%nat "relationshipType".
      rewrite Hraise. sent_so_far.
    + do 5 next_answer. rewrite Hx. cbn [store issued fst snd].
      rewrite Hx0. cbn [store issued fst snd].
      read_column Hread 1%nat "label".
      rewrite Hx1. cbn [store issued fst snd].
      read_column Hread 2%nat "relationshipType".
      rewrite Hx2. cbn [store issued fst snd]. read_count Hread 3%nat.
      rewrite Hraise. sent_so_far.
  - intros answers s5 Hans Hread. unfold info_statements in Hans.
    do 6 next_answer. rewrite Hx. cbn [store issued fst snd].
    rewrite Hx0. cbn [store issued fst snd].
    read_column Hread 1%nat "label".
    rewrite Hx1. cbn [store issued fst snd].
    read_column Hread 2%nat "relationshipType".
    rewrite Hx2. cbn [store issued fst snd]. read_count Hread 3%nat.
    rewrite Hx3. cbn [store issued fst snd]. read_count Hread 4%nat.
    assert (Hinfo : exists info,
               match single l with
               | Some (c :: cs) => dict_of_record (c :: cs)
               | _ => Ok []
               end = Ok info).
    { destruct (single l) as [[|c cs]|]; eauto.
      apply convert_keys_total; [eauto | apply incl_refl]. }
    destruct Hinfo as (info & ->). cbn [rbind].
    split; [eexists; split; reflexivity|]. sent_so_far.
Qed.

Lemma map_result_length {A B} (f : A -> Result B) (l : list A) (l' : list B) :
  map_result f l = Ok l' -> length l' = length l.
Proof.
  revert l'. induction l as [|x l IH]; intros l'; simpl.
  - now intros [= <-].
  - destruct (f x); simpl; [|discriminate].
    destruct (map_result f l) as [ys|]; simpl; [|discriminate].
    intros [= <-]. simpl. f_equal. now apply IH.
Qed.





Lemma node_entry_report (record : Record_) (n : Z * list string * Dict) :
  dict_get record "n" = Some (node_value n) ->
  node_entry record = Ok (node_report n).
Proof.
  destruct n as [[id labels] props]. intros H.
  unfold node_entry, record_getitem. now rewrite H.
Qed.

Lemma node_entries (rs : list Record_) (ns : list (Z * list string * Dict)) :
  Forall2 (fun r n => dict_get r "n" = Some (node_value n)) rs ns ->
  map_result node_entry rs = Ok (map node_report ns).
Proof.
  induction 1 as [|r n rs ns Hr _ IH]; simpl; [reflexivity|].
  now rewrite (node_entry_report _ _ Hr), IH.
Qed.

Lemma node_entries_stop (good : list Record_) (ns : list (Z * list string * Dict))
    (bad : Record_) (rest : list Record_) (e : Exn) :
  Forall2 (fun r n => dict_get r "n" = Some (node_value n)) good ns ->
  node_entry bad = Raise e ->
  map_result node_entry (app good (bad :: rest)) = Raise e.
Proof.
  intros Hgood Hbad. induction Hgood as [|r n rs ns0 Hr _ IH]; simpl.
  - now rewrite Hbad.
  - now rewrite (node_entry_report _ _ Hr), IH.
Qed.

(** With the connection usable and the store answering the lookup with
    records, [find_nodes] reports all of them or none.  If every record
    holds a node in column [n], the call succeeds with one entry for each
    record, in the store's order, made of that node's properties, labels
    and id, and [count] is the number of records.  If some record has no
    column [n], and the records before it hold nodes, the whole call is
    the failure envelope for the [KeyError]: no node is reported. *)
Theorem find_nodes_all_or_nothing
    (w : World) (label : option string) (properties : option Dict)
    (limit : Z) (rs : list Record_) (s' : Store) :
  connects backend config w ->
  execute backend (find_nodes_statement label properties limit) (store w)
  = (Ok rs, s') ->
  (forall ns,
     Forall2 (fun r n => dict_get r "n" = Some (node_value n)) rs ns ->
     fst (find_nodes backend config label properties (Some limit) w)
     = Ok [("success", VBool true);
           ("nodes", VList (map node_report ns));
           ("count", VInt (Z.of_nat (length rs)));
           ("query",
            VStr (stmt_text (find_nodes_statement label properties limit)))])
  /\ (forall good ns bad rest,
        rs = app good (bad :: rest) ->
        Forall2 (fun r n => dict_get r "n" = Some (node_value n)) good ns ->
        dict_get bad "n" = None ->
        fst (find_nodes backend config label properties (Some limit) w)
        = Ok [("success", VBool false);
              ("error", VStr "'n'");
              ("label", opt_str label);
              ("properties", opt_dict properties)]).
Proof.
  intros (d & w' & Hd & Hs) Hx.
  pose proof Hd as Hfr. apply get_neo4j_driver_frame in Hfr.
  destruct Hfr as (Hst & _ & _).
  rewrite find_nodes_guarded, (@guarded_online _ _ w w' d Hd Hs).
  cbv zeta. unfold try_except, bind, Session_run, lift, ret.
  destruct (find_nodes_statement label properties limit) as [text params].
  cbn [stmt_text stmt_params]. rewrite Hst, Hx.
  split.
  - intros ns Hns. rewrite (node_entries Hns). simpl.
    pose proof (Forall2_length Hns) as Hlen.
    rewrite length_map, <- Hlen. reflexivity.
  - intros good ns bad rest -> Hgood Hbad.
    assert (Hraise : node_entry bad = Raise (KeyError "n")).
    { unfold node_entry, record_getitem. now rewrite Hbad. }
    pose proof (@node_entries_stop good ns bad rest _ Hgood Hraise) as Hstop.
    unfold Record_ in *. now rewrite Hstop.
Qed.

(** With the connection usable, [create_node] reads the first record of
    the store's answer and nothing else.  With no record at all the call
    is a failure envelope (a [TypeError]: [None] is not subscriptable)
    although the statement was sent and the store ran it; with a first
    record that holds a node in column [n], the call succeeds with that
    node's properties, labels and id, whatever follows. *)
Theorem create_node_reads_first_record
    (w : World) (label : string) (properties : Dict) :
  connects backend config w ->
  let sent := mkStatement (create_node_query label properties) properties in
  (forall s',
     execute backend sent (store w) = (Ok [], s') ->
     create_node backend config label properties w
     = (Ok [("success", VBool false);
            ("error", VStr "'NoneType' object is not subscriptable");
            ("label", VStr label);
            ("properties", VDict properties)],
        mkWorld (driver (snd (get_neo4j_driver backend config w))) s'
          (created (snd (get_neo4j_driver backend config w)))
          (closed w) (app (issued w) [sent])))
  /\ (forall id labels props columns rest s',
        execute backend sent (store w)
        = (Ok ((("n", VNode id labels props) :: columns) :: rest), s') ->
        fst (create_node backend config label properties w)
        = Ok [("success", VBool true);
              ("node", VDict props);
              ("labels", VList (map VStr labels));
              ("id", VInt id)]).
Proof.
  intros (d & w' & Hd & Hs). cbv zeta.
  pose proof Hd as Hfr. apply get_neo4j_driver_frame in Hfr.
  destruct Hfr as (Hst & Hi & Hc).
  rewrite create_node_guarded, (@guarded_online _ _ w w' d Hd Hs).
  unfold try_except, bind, Session_run, lift, ret. rewrite Hst, Hi, Hd.
  split.
  - intros s' Hx. rewrite Hx. simpl. now rewrite Hc.
  - intros id labels props columns rest s' Hx. now rewrite Hx.
Qed.

End Guarded.


(** * More of the connection manager *)

(** [close_driver] (and so [cleanup]) at its edges.  With no handle in the
    global it does nothing.  With a handle whose [close] returns, the handle
    is closed once and a second call does nothing more.  With a handle
    whose [close] raises, the exception leaves [close_driver] (nothing
    catches it) and the global still holds the handle. *)
Theorem close_driver_edges
    (Store : Type) (backend : Backend Store) (w : World Store) :
  (driver w = None -> cleanup backend w = (Ok tt, w))
  /\ (forall d,
        driver w = Some d ->
        shutdown backend d (store w) = None ->
        exists w2,
          cleanup backend w = (Ok tt, w2)
          /\ driver w2 = None
          /\ closed w2 = app (closed w) [d]
          /\ cleanup backend w2 = (Ok tt, w2))
  /\ (forall d e,
        driver w = Some d ->
        shutdown backend d (store w) = Some e ->
        cleanup backend w = (Raise e, w)).
Proof.
  unfold cleanup, close_driver, bind, get_driver_global, Driver_close,
    set_driver, ret.
  split; [|split].
  - now intros ->.
  - intros d -> Hs. rewrite Hs. eexists. repeat split.
  - intros d e -> Hs. now rewrite Hs.
Qed.

Lemma close_driver_edges_witness :
  cleanup Demo.accepting Demo.fresh = (Ok tt, Demo.fresh)
  /\ cleanup Demo.stuck
       (mkWorld (Some (mkDriver 0 None (None, None))) 0%nat 1%nat [] [])
     = (Raise (mkExn "RuntimeError" "close failed"),
        mkWorld (Some (mkDriver 0 None (None, None))) 0%nat 1%nat [] []).
Proof.
  split.
  - exact (proj1 (close_driver_edges Demo.accepting Demo.fresh) eq_refl).
  - exact (proj2 (proj2 (close_driver_edges Demo.stuck
                           (mkWorld (Some (mkDriver 0 None (None, None)))
                              0%nat 1%nat [] [])))
             _ _ eq_refl eq_refl).
Defined.

(** * More of the lookup statement *)

Section Filter.

(** For a filter whose keys are distinct, every entry of the filter is
    bound in the parameters of the statement [find_nodes] builds: the
    placeholder [$key] stands for the filter's value.  A filter entry
    named [limit] is bound like any other, in the place of the [limit]
    argument. *)
Theorem find_nodes_binds_filter
    (label : option string) (filter : Dict) (limit : Z)
    (k : string) (v : value) :
  NoDup (keys filter) ->
  In (k, v) filter ->
  dict_get (stmt_params (find_nodes_statement label (Some filter) limit)) k
  = Some v.
Proof.
  intros Hnd Hin. unfold find_nodes_statement.
  destruct filter as [|kv filter]; [destruct Hin|].
  cbn [truthy_dict].
  pose proof (where_loop_binds (kv :: filter) [] [("limit", VInt limit)]
                k v Hnd Hin) as H.
  destruct (where_loop (kv :: filter) [] [("limit", VInt limit)]) as [wc params].
  exact H.
Qed.

Lemma find_nodes_binds_filter_witness :
  NoDup (keys [("name", VStr "Ada"); ("limit", VInt 500)])
  /\ In ("limit", VInt 500) [("name", VStr "Ada"); ("limit", VInt 500)]
  /\ dict_get (stmt_params
                 (find_nodes_statement (Some "Person")
                    (Some [("name", VStr "Ada"); ("limit", VInt 500)]) 10))
       "limit"
     = Some (VInt 500).
Proof.
  assert (H : NoDup (keys [("name", VStr "Ada"); ("limit", VInt 500)])).
  { repeat constructor; simpl; intuition discriminate. }
  split; [exact H|]. split; [simpl; tauto|].
  apply (@find_nodes_binds_filter (Some "Person")
           [("name", VStr "Ada"); ("limit", VInt 500)] 10 "limit" (VInt 500) H).
  simpl; tauto.
Defined.

(** With at least one filter entry, the text [find_nodes] builds is the
    match clause, then [WHERE], then one predicate [n.key = $key] for each
    filter entry in the filter's order, joined by [AND], then
    [RETURN n LIMIT $limit]. *)
Theorem find_nodes_where_clause
    (label : option string) (kv : string * value) (filter : Dict) (limit : Z) :
  stmt_text (find_nodes_statement label (Some (kv :: filter)) limit)
  = (match label with
     | Some l => if String.eqb l "" then "MATCH (n)" else "MATCH (n:" ++ l ++ ")"
     | None => "MATCH (n)"
     end)
    ++ " WHERE "
    ++ join " AND "
         (map (fun key => "n." ++ key ++ " = $" ++ key) (keys (kv :: filter)))
    ++ " RETURN n LIMIT $limit".
Proof.
  unfold find_nodes_statement. cbn [truthy_dict].
  pose proof (where_loop_clauses (kv :: filter) [] [("limit", VInt limit)]) as Hw.
  destruct (where_loop (kv :: filter) [] [("limit", VInt limit)]) as [wc params].
  cbn [fst app] in Hw. subst wc. cbn [stmt_text].
  change (map _ (keys (kv :: filter)))
    with (("n." ++ fst kv ++ " = $" ++ fst kv)
          :: map (fun k => "n." ++ k ++ " = $" ++ k) (keys filter)).
  cbv iota. rewrite append_assoc.
  destruct label as [l|]; [|reflexivity].
  unfold truthy_str. now destruct (String.eqb l "").
Qed.

End Filter.

(** * The client tools *)

Section ClientTools.

Variable rt : Runtime.
Variable t : Transport.
Variable self : Neo4jMCPTool.

(** When the call to the server does not go through (the block in
    [_execute_mcp_call] raises [e], whatever tool is called), each of the
    four client tools returns its failure sentence ending in [str(e)]; none
    of them raises and none calls [json.dumps]. *)
Theorem client_tools_report_transport_failure
    (e : Exn) (query : string) (parameters : option Dict)
    (label : string) (properties : Dict)
    (flabel : option string) (filter : option Dict) (limit : option Z) :
  (forall tool_name arguments,
     execute_mcp_call_try t self tool_name arguments = Raise e) ->
  CypherQueryTool_run rt t self query parameters
  = Ok ("Query failed: " ++ str e)
  /\ CreateNodeTool_run rt t self label properties
     = Ok ("Failed to create node: " ++ str e)
  /\ FindNodesTool_run rt t self flabel filter limit
     = Ok ("Search failed: " ++ str e)
  /\ DatabaseInfoTool_run rt t self
     = Ok ("Failed to get database info: " ++ str e).
Proof.
  intros Hfail.
  unfold CypherQueryTool_run, CreateNodeTool_run, FindNodesTool_run,
    DatabaseInfoTool_run, asyncio_run, _execute_mcp_call.
  cbv zeta. rewrite !Hfail. repeat split.
Qed.



End ClientTools.

Lemma client_tools_report_transport_failure_witness :
  (forall tool_name arguments,
     execute_mcp_call_try Demo.refused default_tool tool_name arguments
     = Raise (mkExn "ConnectError" "All connection attempts failed"))
  /\ CypherQueryTool_run Demo.runtime Demo.refused default_tool
       "MATCH (n) RETURN n" None
     = Ok "Query failed: All connection attempts failed".
Proof.
  split; [reflexivity|].
  exact (proj1 (@client_tools_report_transport_failure Demo.runtime
                  Demo.refused default_tool
                  (mkExn "ConnectError" "All connection attempts failed")
                  "MATCH (n) RETURN n" None "Person" [] None None None
                  (fun _ _ => eq_refl))).
Defined.



(** * The tools on the stand-in stores *)

Lemma unreachable_offline :
  ~ connects Demo.unreachable Demo.config Demo.fresh.
Proof. intros (d & w' & H & _). discriminate H. Qed.

Lemma empty_connects : connects Demo.empty Demo.config Demo.fresh.
Proof. do 2 eexists. split; reflexivity. Qed.

Lemma tools_send_nothing_offline_witness :
  ~ connects Demo.unreachable Demo.config Demo.fresh
  /\ exists e,
       fst (find_nodes Demo.unreachable Demo.config (Some "Person") None None
              Demo.fresh)
       = Ok (find_nodes_except (Some "Person") None e)
       /\ issued (snd (find_nodes Demo.unreachable Demo.config (Some "Person")
                         None None Demo.fresh)) = []
       /\ store (snd (find_nodes Demo.unreachable Demo.config (Some "Person")
                        None None Demo.fresh)) = 0%nat.
Proof.
  split; [exact unreachable_offline|].
  exact (proj2 (proj2 (proj2
           (@tools_send_nothing_offline nat Demo.unreachable Demo.config
              Demo.fresh "q" None "Person" [] (Some "Person") None None
              unreachable_offline)))).
Defined.

Lemma failed_connection_changes_nothing_witness :
  driver Demo.fresh = None
  /\ create_node Demo.unreachable Demo.config "Person" [] Demo.fresh
     = (Ok (create_node_except "Person" []
              (mkExn "ServiceUnavailable" "Unable to connect")),
        Demo.fresh).
Proof.
  split; [reflexivity|].
  exact (proj1 (proj2 (proj2
           (@failed_connection_changes_nothing nat Demo.unreachable Demo.config
              Demo.fresh (mkExn "ServiceUnavailable" "Unable to connect")
              "q" None "Person" [] None None None eq_refl eq_refl)))).
Defined.


Lemma find_nodes_all_or_nothing_witness :
  connects Demo.accepting Demo.config Demo.fresh
  /\ fst (find_nodes Demo.accepting Demo.config (Some "Person") None (Some 5%Z)
            Demo.fresh)
     = Ok [("success", VBool true);
           ("nodes",
            VList [VDict [("properties", VDict [("limit", VInt 5)]);
                          ("labels", VList []);
                          ("id", VInt 0)]]);
           ("count", VInt 1);
           ("query", VStr "MATCH (n:Person) RETURN n LIMIT $limit")].
Proof.
  split; [exact demo_connects|].
  refine (proj1 (@find_nodes_all_or_nothing nat Demo.accepting Demo.config
                   Demo.fresh (Some "Person") None 5%Z
                   [[("n", VNode 0 [] [("limit", VInt 5)])]] 1%nat
                   demo_connects eq_refl)
            [(0%Z, [], [("limit", VInt 5)])] _).
  repeat constructor.
Defined.

Lemma create_node_reads_first_record_witness :
  connects Demo.empty Demo.config Demo.fresh
  /\ fst (create_node Demo.empty Demo.config "Person" [("name", VStr "Ada")]
            Demo.fresh)
     = Ok [("success", VBool false);
           ("error", VStr "'NoneType' object is not subscriptable");
           ("label", VStr "Person");
           ("properties", VDict [("name", VStr "Ada")])].
Proof.
  split; [exact empty_connects|].
  exact (f_equal fst
           (proj1 (@create_node_reads_first_record nat Demo.empty Demo.config
                     Demo.fresh "Person" [("name", VStr "Ada")] empty_connects)
              0%nat eq_refl)).
Defined.

(** * From the database to the agent *)

(** The server and the client tools together, when the database cannot be
    reached.  The server holds no handle and the driver library raises [e]
    when asked for one; the transport brings each server answer back to the
    client as the server made it.  Then every client tool returns its
    failure sentence with the driver's message [str(e)]. *)
Theorem unreachable_database_reaches_the_agent
    (Store : Type) (backend : Backend Store) (config : Config)
    (w : World Store) (e : Exn) (rt : Runtime) (t : Transport)
    (self : Neo4jMCPTool) (query : string) (parameters : Dict)
    (label : string) (properties : Dict)
    (flabel : option string) (filter : option Dict) (limit : Z) :
  driver w = None ->
  connect backend (NEO4J_URI config)
    (NEO4J_USERNAME config, NEO4J_PASSWORD config) (store w) = Some e ->
  (forall env,
     fst (run_cypher_query backend config query (Some parameters) w) = Ok env ->
     delivers t self "run_cypher_query"
       [("query", VStr query); ("parameters", VDict parameters)] env ->
     CypherQueryTool_run rt t self query (Some parameters)
     = Ok ("Query failed: " ++ str e))
  /\ (forall env,
        fst (create_node backend config label properties w) = Ok env ->
        delivers t self "create_node"
          [("label", VStr label); ("properties", VDict properties)] env ->
        CreateNodeTool_run rt t self label properties
        = Ok ("Failed to create node: " ++ str e))
  /\ (forall env,
        fst (find_nodes backend config flabel filter (Some limit) w) = Ok env ->
        delivers t self "find_nodes"
          [("label", opt_str flabel); ("properties", opt_dict filter);
           ("limit", VInt limit)] env ->
        FindNodesTool_run rt t self flabel filter (Some limit)
        = Ok ("Search failed: " ++ str e))
  /\ (forall env,
        fst (get_database_info backend config w) = Ok env ->
        delivers t self "get_database_info" [] env ->
        DatabaseInfoTool_run rt t self
        = Ok ("Failed to get database info: " ++ str e)).
Proof.
  intros Hn Hc.
  rewrite run_cypher_query_guarded, get_database_info_guarded,
    create_node_guarded, find_nodes_guarded.
  rewrite !(fun k h => @guarded_no_handle _ backend config k h w e Hn Hc).
  unfold delivers.
  split; [|split; [|split]]; intros env [= <-] Hd.
  - unfold CypherQueryTool_run, asyncio_run.
    replace (match Some parameters with
             | Some (kv :: rest) => kv :: rest
             | _ => []
             end) with parameters by now destruct parameters.
    now rewrite Hd.
  - unfold CreateNodeTool_run, asyncio_run. now rewrite Hd.
  - unfold FindNodesTool_run, asyncio_run. cbv zeta. now rewrite Hd.
  - unfold DatabaseInfoTool_run, asyncio_run. now rewrite Hd.
Qed.

Lemma unreachable_database_reaches_the_agent_witness :
  let t := Demo.answering "{}"
             (Ok (VDict (create_node_except "Person" []
                           (mkExn "ServiceUnavailable" "Unable to connect")))) in
  driver Demo.fresh = None
  /\ delivers t default_tool "create_node"
       [("label", VStr "Person"); ("properties", VDict [])]
       (create_node_except "Person" []
          (mkExn "ServiceUnavailable" "Unable to connect"))
  /\ CreateNodeTool_run Demo.runtime t default_tool "Person" []
     = Ok "Failed to create node: Unable to connect".
Proof.
  cbv zeta. split; [reflexivity|]. split; [reflexivity|].
  exact (proj1 (proj2
           (@unreachable_database_reaches_the_agent nat Demo.unreachable
              Demo.config Demo.fresh
              (mkExn "ServiceUnavailable" "Unable to connect") Demo.runtime
              (Demo.answering "{}"
                 (Ok (VDict (create_node_except "Person" []
                               (mkExn "ServiceUnavailable" "Unable to connect")))))
              default_tool "q" [] "Person" [] None None 10%Z
              eq_refl eq_refl))
           _ eq_refl eq_refl).
Defined.

Lemma rejecting_connects : connects Demo.rejecting Demo.config Demo.fresh.
Proof. do 2 eexists. split; reflexivity. Qed.

Lemma get_database_info_stops_at_first_raise_witness :
  connects Demo.rejecting Demo.config Demo.fresh
  /\ fst (get_database_info Demo.rejecting Demo.config Demo.fresh)
     = Ok [("success", VBool false); ("error", VStr "Unknown procedure")]
  /\ issued (snd (get_database_info Demo.rejecting Demo.config Demo.fresh))
     = [mkStatement "CALL db.info()" []]
  /\ store (snd (get_database_info Demo.rejecting Demo.config Demo.fresh))
     = 0%nat.
Proof.
  split; [exact rejecting_connects|].
  refine (proj1 (@get_database_info_stops_at_first_raise nat Demo.rejecting
                   Demo.config Demo.fresh rejecting_connects)
            0%nat [] 0%nat 0%nat (mkStatement "CALL db.info()" [])
            (mkExn "ClientError" "Unknown procedure")
            eq_refl eq_refl _ eq_refl).
  intros [|i] a H; discriminate H.
Defined.
